(** * cool-calculator: the Flask/SQLAlchemy demonstration pipeline of [app.py]

  The development embeds the request handlers of [app.py] as computations
  in a small state-and-exception monad over the two SQLite databases the
  application is connected to, and proves the properties of the
  specification about them. *)

From Stdlib Require Import ZArith NArith Ascii String DecimalString Lia.
From stdpp Require Import base option list strings gmap.

Local Open Scope Z_scope.

(* ================================================================== *)
(** * Python values used by the application *)
(* ================================================================== *)

Module Py.

(** A Python 3 [str] is a sequence of Unicode code points. *)
Abbreviation codepoint := N (only parsing).
Abbreviation str := (list N) (only parsing).

(** A string literal of the source; every literal of [app.py] is ASCII,
    so each character is its own code point. *)
Definition u (s : string) : str :=
  N_of_ascii <$> list_ascii_of_string s.
Global Arguments u : simpl never.

(** [==] on two [str] objects. *)
Definition str_eqb (a b : str) : bool := bool_decide (a = b).

(** [str.isspace] on one code point: the code points CPython's
    [_PyUnicode_IsWhitespace] accepts (bidirectional type WS, B or S, or
    category Zs). *)
Definition isspace (c : codepoint) : bool :=
  ((0x09 <=? c) && (c <=? 0x0D) ||
   (0x1C <=? c) && (c <=? 0x20) ||
   (c =? 0x85) || (c =? 0xA0) || (c =? 0x1680) ||
   (0x2000 <=? c) && (c <=? 0x200A) ||
   (c =? 0x2028) || (c =? 0x2029) || (c =? 0x202F) ||
   (c =? 0x205F) || (c =? 0x3000))%N.

(** [str.split(s)] with no separator: runs of whitespace separate the
    words, leading and trailing whitespace is dropped, and no empty word
    is produced.  [word] is the word being read, empty between words. *)
Fixpoint split_from (word : str) (s : str) : list str :=
  match s with
  | [] => if word is [] then [] else [word]
  | c :: s' =>
      if isspace c
      then (if word is [] then split_from [] s'
            else word :: split_from [] s')
      else split_from (word ++ [c]) s'
  end.

Definition split (s : str) : list str := split_from [] s.

(** [str(n)] for an [int]. *)
Definition str_of_int (n : Z) : str :=
  u (NilZero.string_of_int (Z.to_int n)).
Global Arguments str_of_int : simpl never.

(** [range(lo, hi)]. *)
Definition range (lo hi : Z) : list Z := seqZ lo (hi - lo).

(** The exceptions the handlers can meet.  [OperationalError] is what
    SQLAlchemy raises when a statement names a table that does not
    exist; the specification calls it StoreUnavailable. *)
Inductive exn := OperationalError | IndexError | TypeError.

Inductive result (A : Type) :=
| Ok (a : A)
| Raise (e : exn).
Global Arguments Ok {A} a.
Global Arguments Raise {A} e.

(** [l[0]] on a list. *)
Definition index0 {A} (l : list A) : result A :=
  match l with
  | [] => Raise IndexError
  | x :: _ => Ok x
  end.

(** The values a column attribute or a JSON field can hold. *)
Inductive val :=
| None_
| Bool (b : bool)
| Int (n : Z)
| Str (s : str).

(** An attribute that is an [int] or [None]. *)
Definition of_int (o : option Z) : val := from_option Int None_ o.

#[global] Instance val_eq_dec : EqDecision val.
Proof. solve_decision. Defined.

(** [v == s] for a [str] literal [s]: an object that is not a [str] is
    not equal to one. *)
Definition eq_str (v : val) (s : str) : bool :=
  match v with
  | Str t => str_eqb t s
  | _ => false
  end.

End Py.

Import Py.

(* ================================================================== *)
(** * The models and the two databases *)
(* ================================================================== *)

(** [db.Model]: a mapped class has an integer primary key [id], which is
    [None] on an object that has not been written yet and which the
    database assigns when the row is inserted. *)
Class Model (T : Type) := {
  get_id : T -> option Z;
  set_id : Z -> T -> T
}.

Module InputPerson.
Record t := new {
  id : option Z;
  name : val;
  nickname : val;
  gender : val;
  age : val
}.
End InputPerson.

Module OutputPerson.
Record t := new {
  id : option Z;
  name : val;
  nickname : val;
  gender : val;
  age : val;
  is_cool : val
}.

(** The [first_name] property: [str.split(self.name)[0]].  [str.split]
    is the unbound method, so an argument that is not a [str] is a
    [TypeError]. *)
Definition first_name (self : t) : result str :=
  match name self with
  | Str s => index0 (split s)
  | _ => Raise TypeError
  end.
End OutputPerson.

#[global] Instance InputPerson_Model : Model InputPerson.t := {
  get_id := InputPerson.id;
  set_id k p :=
    InputPerson.new (Some k) (InputPerson.name p) (InputPerson.nickname p)
      (InputPerson.gender p) (InputPerson.age p)
}.

#[global] Instance OutputPerson_Model : Model OutputPerson.t := {
  get_id := OutputPerson.id;
  set_id k p :=
    OutputPerson.new (Some k) (OutputPerson.name p) (OutputPerson.nickname p)
      (OutputPerson.gender p) (OutputPerson.age p) (OutputPerson.is_cool p)
}.

(** A table is the list of its rows in the order a full scan returns
    them; a database whose table has not been created is [None].
    [input_database] is the bind of that name (input_database.sqlite) and
    [output_database] the default database (output_database.sqlite). *)
Record database := Database {
  input_database : option (list InputPerson.t);
  output_database : option (list OutputPerson.t)
}.

(** The [bind] argument of [db.drop_all] and [db.create_all] as the
    handlers use it: [bind=None] is the default database only,
    [bind='input_database'] that bind only. *)
Inductive bind := bind_None | bind_input_database.

(** An object of a mapped class, on the heap of the running request. *)
Inductive instance :=
| an_InputPerson (p : InputPerson.t)
| an_OutputPerson (p : OutputPerson.t).

Definition as_InputPerson (i : instance) : option InputPerson.t :=
  match i with an_InputPerson p => Some p | _ => None end.

Definition as_OutputPerson (i : instance) : option OutputPerson.t :=
  match i with an_OutputPerson p => Some p | _ => None end.

(** What a request sees: the two databases, the objects it has
    constructed (a reference is a position in [heap]) and the pending
    objects of [db.session], by reference and in the order they were
    first added. *)
Record world := World {
  store : database;
  heap : list instance;
  session_new : list nat
}.

(** ** The INSERT statements of a flush *)

(** The largest key of an SQLite table, 2^63 - 1. *)
Definition max_rowid : Z := 9223372036854775807.

(** SQLite gives a row inserted without a key the key 1 in an empty table
    and otherwise one more than the largest key in use (the table has no
    AUTOINCREMENT).  That is its rule as long as the largest key in use
    is below [max_rowid]; once a table holds the key [max_rowid], SQLite
    draws unused keys at random, which this function does not describe.
    The theorems on rows added to a table that holds rows already
    ([create_lots_of_people]) therefore assume that the new keys end at
    or below [max_rowid].  A table filled from empty, as the destination
    table of a run is, gets the keys 1, 2, ..., n under this rule, which
    are below [max_rowid] for every table SQLite can hold. *)
Definition next_rowid {T} `{Model T} (rows : list T) : Z :=
  match omap get_id rows with
  | [] => 1
  | k :: ks => 1 + foldr Z.max k ks
  end.

Fixpoint insert_rows {T} `{Model T} (rows new : list T) : list T :=
  match new with
  | [] => rows
  | p :: new' => insert_rows (rows ++ [set_id (next_rowid rows) p]) new'
  end.

(** No statement is sent for a table with no pending object; an INSERT
    into a table that does not exist fails. *)
Definition insert_into {T} `{Model T}
    (table : option (list T)) (new : list T) : option (option (list T)) :=
  match new, table with
  | [], _ => Some table
  | _ :: _, Some rows => Some (Some (insert_rows rows new))
  | _ :: _, None => None
  end.

(* ================================================================== *)
(** * Request handlers as computations *)
(* ================================================================== *)

(** A handler runs on the world and either returns or raises; what it
    did to the world before raising stays done. *)
Definition M (A : Type) : Type := world -> result A * world.

#[global] Instance M_ret : MRet M := fun A a w => (Ok a, w).

#[global] Instance M_bind : MBind M := fun A B f m w =>
  match m w with
  | (Ok a, w') => f a w'
  | (Raise e, w') => (Raise e, w')
  end.

(** [try: x = m] with a bare [except:] whose body returns [h], followed
    by the rest [k x] of the function: the [except] catches everything
    [m] raises and nothing [k] raises. *)
Definition try_except_return {A B} (m : M A) (h : M B) (k : A -> M B) : M B :=
  fun w =>
  match m w with
  | (Ok a, w') => k a w'
  | (Raise _, w') => h w'
  end.

(** [for x in l: body], threading the local variables [s] the body
    assigns. *)
Fixpoint for_in {A S} (l : list A) (body : A -> S -> M S) (s : S) : M S :=
  match l with
  | [] => mret s
  | x :: l' => s' ← body x s; for_in l' body s'
  end.

(** Calling a mapped class: a fresh transient object. *)
Definition construct (i : instance) : M nat := fun w =>
  (Ok (length (heap w)),
   World (store w) (heap w ++ [i]) (session_new w)).

Definition InputPerson_ (name nickname gender age : val) : M nat :=
  construct (an_InputPerson (InputPerson.new None name nickname gender age)).

Definition OutputPerson_ (name nickname gender age is_cool : val) : M nat :=
  construct
    (an_OutputPerson (OutputPerson.new None name nickname gender age is_cool)).

Module db.

(** [db.drop_all(bind=b)]: DROP TABLE, where the table exists, in the
    database of [b] only. *)
Definition drop_all (b : bind) : M () := fun w =>
  let d := store w in
  (Ok (),
   World
     match b with
     | bind_None => Database (input_database d) None
     | bind_input_database => Database None (output_database d)
     end
     (heap w) (session_new w)).

(** [db.create_all(bind=b)]: CREATE TABLE, where the table does not
    exist yet, in the database of [b] only. *)
Definition create_all (b : bind) : M () := fun w =>
  let d := store w in
  (Ok (),
   World
     match b with
     | bind_None =>
         Database (input_database d) (Some (default [] (output_database d)))
     | bind_input_database =>
         Database (Some (default [] (input_database d))) (output_database d)
     end
     (heap w) (session_new w)).

Module session.

(** [db.session.add(obj)]: the object becomes pending; adding an object
    that is pending already changes nothing. *)
Definition add (obj : nat) : M () := fun w =>
  (Ok (),
   World (store w) (heap w)
     (if bool_decide (obj ∈ session_new w) then session_new w
      else session_new w ++ [obj])).

(** [db.session.commit()]: the pending objects are inserted, each class
    into its table and in the order they were added; if a statement
    fails the transaction is rolled back and nothing is written. *)
Definition commit : M () := fun w =>
  let d := store w in
  let objs := omap (fun r => heap w !! r) (session_new w) in
  match insert_into (input_database d) (omap as_InputPerson objs),
        insert_into (output_database d) (omap as_OutputPerson objs) with
  | Some i, Some o => (Ok (), World (Database i o) (heap w) [])
  | _, _ => (Raise OperationalError, World d (heap w) [])
  end.

End session.
End db.

(** [InputPerson.query.all()] and [OutputPerson.query.all()]: the rows of
    the table, or an error when the table does not exist.  (A query
    first flushes the pending objects; no handler queries while it has
    any.) *)
Definition InputPerson_query_all : M (list InputPerson.t) := fun w =>
  match input_database (store w) with
  | Some rows => (Ok rows, w)
  | None => (Raise OperationalError, w)
  end.

Definition OutputPerson_query_all : M (list OutputPerson.t) := fun w =>
  match output_database (store w) with
  | Some rows => (Ok rows, w)
  | None => (Raise OperationalError, w)
  end.

(** ** Responses *)

(** A Python [dict] with [str] keys. *)
Abbreviation dict := (gmap (list N) val) (only parsing).

Inductive json :=
| json_dict (d : dict)
| json_list (l : list dict).

Inductive response :=
| text (body : str)
| jsonify (j : json)
| render_template (template : str).

(** Lifting an expression that can raise into a handler. *)
Definition eval {A} (r : result A) : M A := fun w => (r, w).

(** ** The routes of [app.py] *)

Definition create_input_database : M response :=
  db.drop_all bind_input_database;;
  db.create_all bind_input_database;;
  new_person ← InputPerson_
    (Str (u "Richard Cunningham")) (Str (u "Richie")) (Str (u "male")) (Int 19);
  db.session.add new_person;;
  new_person ← InputPerson_
    (Str (u "Arthur Herbert Fonzarelli")) (Str (u "Fonzie")) (Str (u "male"))
    (Int 20);
  db.session.add new_person;;
  unnamed ← InputPerson_
    (Str (u "Joanie Cunningham")) (Str (u "Joanie")) (Str (u "female")) (Int 20);
  db.session.add unnamed;;
  db.session.add new_person;;
  db.session.commit;;
  mret (text (u "ok")).

Definition show_input_database : M response :=
  list_of_people ← InputPerson_query_all;
  output_list ← for_in list_of_people (fun person output_list =>
    let output_person : dict := list_to_map [
      (u "id", of_int (InputPerson.id person));
      (u "name", InputPerson.name person);
      (u "nickname", InputPerson.nickname person);
      (u "gender", InputPerson.gender person);
      (u "age", InputPerson.age person)
    ] in
    mret (output_list ++ [output_person])) [];
  mret (jsonify (json_list output_list)).

Definition show_output_database : M response :=
  try_except_return OutputPerson_query_all
    (mret (jsonify (json_dict (list_to_map [
       (u "status", Str (u "error"));
       (u "what_happened",
        Str (u "Could not access output database. Did you create it already?"))
     ]))))
    (fun list_of_people =>
  output_list ← for_in list_of_people (fun person output_list =>
    first_name ← eval (OutputPerson.first_name person);
    let output_person : dict := list_to_map [
      (u "id", of_int (OutputPerson.id person));
      (u "name", OutputPerson.name person);
      (u "nickname", OutputPerson.nickname person);
      (u "gender", OutputPerson.gender person);
      (u "age", OutputPerson.age person);
      (u "is_cool", OutputPerson.is_cool person);
      (u "first_name", Str first_name)
    ] in
    mret (output_list ++ [output_person])) [];
  mret (jsonify (json_list output_list))).

Definition process_everything : M response :=
  db.drop_all bind_None;;
  db.create_all bind_None;;
  list_of_input_people ← InputPerson_query_all;
  counts ← for_in list_of_input_people
    (fun input_person '(number_of_people_processed,
                        number_of_cool_people_processed) =>
       let '(is_this_person_cool, number_of_cool_people_processed) :=
         if eq_str (InputPerson.nickname input_person) (u "Fonzie")
         then (true, number_of_cool_people_processed + 1)
         else (false, number_of_cool_people_processed) in
       new_output_person ← OutputPerson_
         (InputPerson.name input_person)
         (InputPerson.nickname input_person)
         (InputPerson.gender input_person)
         (InputPerson.age input_person)
         (Bool is_this_person_cool);
       db.session.add new_output_person;;
       mret (number_of_people_processed + 1,
             number_of_cool_people_processed))
    (0, 0);
  let '(number_of_people_processed, number_of_cool_people_processed) :=
    counts in
  db.session.commit;;
  mret (text (str_of_int number_of_people_processed
              ++ u " people processed of which "
              ++ str_of_int number_of_cool_people_processed
              ++ u " were cool")).

Definition create_lots_of_people : M response :=
  for_in (range 1 100000) (fun a _ =>
    person ← InputPerson_
      (Str (u "Someone else")) (Str (u "Too boring to have a nickname"))
      (Str (u "Unclear")) (Int 25);
    db.session.add person) ();;
  db.session.commit;;
  mret (text (u "100,000 people created in input database")).

Definition index_route : M response :=
  mret (render_template (u "howto.html")).

(** One request: the handler starts with no object and an empty session
    (the session is scoped to the request and removed after it), and
    what remains is its outcome and the databases.  An exception that
    leaves the handler is the unhandled failure of the request. *)
Definition request (handler : M response) (d : database)
    : result response * database :=
  let '(r, w) := handler (World d [] []) in (r, store w).

(* ================================================================== *)
(** * Definitions used to state the properties *)
(* ================================================================== *)

(** The first whitespace-delimited token of a string, as the
    specification words it: skip the leading whitespace, then read up to
    the next whitespace character or the end. *)
Fixpoint skip_whitespace (s : str) : str :=
  match s with
  | [] => []
  | c :: s' => if isspace c then skip_whitespace s' else s
  end.

Fixpoint read_token (s : str) : str :=
  match s with
  | [] => []
  | c :: s' => if isspace c then [] else c :: read_token s'
  end.

Definition first_token (s : str) : str := read_token (skip_whitespace s).

(** A string has a token when some character of it is not whitespace. *)
Definition has_token (s : str) : Prop :=
  Exists (fun c => isspace c = false) s.

(** ** Names for what the handlers build *)

(** The rule of the pipeline: a person is cool when the nickname is
    "Fonzie". *)
Definition is_Fonzie (p : InputPerson.t) : bool :=
  eq_str (InputPerson.nickname p) (u "Fonzie").

(** The object the loop of [process_everything] constructs for a source
    record. *)
Definition output_person_of (p : InputPerson.t) : OutputPerson.t :=
  OutputPerson.new None (InputPerson.name p) (InputPerson.nickname p)
    (InputPerson.gender p) (InputPerson.age p) (Bool (is_Fonzie p)).

(** The counters of that loop after one more record. *)
Definition count_person (p : InputPerson.t) (counts : Z * Z) : Z * Z :=
  (counts.1 + 1, if is_Fonzie p then counts.2 + 1 else counts.2).

(** The object each round of [create_lots_of_people] constructs. *)
Definition someone_else : InputPerson.t :=
  InputPerson.new None (Str (u "Someone else"))
    (Str (u "Too boring to have a nickname")) (Str (u "Unclear")) (Int 25).

(** The text [process_everything] answers with for the two counts. *)
Definition summary (processed cool : Z) : response :=
  text (str_of_int processed ++ u " people processed of which "
        ++ str_of_int cool ++ u " were cool").

(** Two rows that differ in the key at most. *)
Definition same_columns {T} `{Model T} (p q : T) : Prop :=
  exists k, q = set_id k p.

(** The dictionary [show_input_database] builds for a source record. *)
Definition input_entry (person : InputPerson.t) : gmap (list N) val :=
  list_to_map [
    (u "id", of_int (InputPerson.id person));
    (u "name", InputPerson.name person);
    (u "nickname", InputPerson.nickname person);
    (u "gender", InputPerson.gender person);
    (u "age", InputPerson.age person)
  ].

(** The dictionary [show_output_database] builds for a destination
    record whose first name is [first_name]. *)
Definition output_entry (person : OutputPerson.t) (first_name : list N)
    : gmap (list N) val :=
  list_to_map [
    (u "id", of_int (OutputPerson.id person));
    (u "name", OutputPerson.name person);
    (u "nickname", OutputPerson.nickname person);
    (u "gender", OutputPerson.gender person);
    (u "age", OutputPerson.age person);
    (u "is_cool", OutputPerson.is_cool person);
    (u "first_name", Str first_name)
  ].

(** The value of an expression that did not raise. *)
Definition value_of {A} (r : result (list A)) : list A :=
  match r with Ok a => a | Raise _ => [] end.

(* ================================================================== *)
(** * Words of a string: lemmas *)
(* ================================================================== *)

Section Split.

Implicit Types (s word : list N) (c : N).

Lemma split_from_nonempty word s :
  word <> [] -> exists rest, split_from word s = (word ++ read_token s) :: rest.
Proof.
  revert word. induction s as [|c s IH]; intros word Hw; simpl.
  - destruct word; [done|]. rewrite app_nil_r. eauto.
  - destruct (isspace c).
    + destruct word; [done|]. rewrite app_nil_r. eauto.
    + destruct (IH (word ++ [c])) as [rest ->].
      { intros E. by apply app_eq_nil in E as [_ ?]. }
      rewrite <- app_assoc. simpl. eauto.
Qed.

Lemma split_skip_whitespace s : split s = split (skip_whitespace s).
Proof.
  unfold split. induction s as [|c s IH]; simpl; [done|].
  destruct (isspace c) eqn:E; [done|]. simpl. by rewrite E.
Qed.

Lemma skip_whitespace_has_token s :
  has_token s -> exists c s', skip_whitespace s = c :: s' /\ isspace c = false.
Proof.
  induction 1 as [c s Hc|c s _ IH]; simpl.
  - rewrite Hc. eauto.
  - destruct (isspace c) eqn:E; eauto.
Qed.

Lemma split_has_token s :
  has_token s -> exists rest, split s = first_token s :: rest.
Proof.
  intros (c & s' & Hs & Hc)%skip_whitespace_has_token.
  rewrite split_skip_whitespace. unfold first_token, split.
  rewrite Hs. simpl. rewrite Hc.
  destruct (split_from_nonempty [c] s') as [rest ->]; [done|]. eauto.
Qed.

Lemma split_whitespace s :
  Forall (fun c => isspace c = true) s -> split s = [].
Proof.
  unfold split. induction 1 as [|c s Hc _ IH]; simpl; [done|].
  by rewrite Hc.
Qed.

End Split.

(* ================================================================== *)
(** * The session and the INSERTs *)
(* ================================================================== *)

Section Session.

Lemma omap_lookup_seq {A} (h l : list A) :
  omap (fun r => (h ++ l) !! r) (seq (length h) (length l)) = l.
Proof.
  revert h. induction l as [|x l IH]; intros h; simpl; [done|].
  rewrite list_lookup_middle by done. f_equal.
  specialize (IH (h ++ [x])).
  rewrite <- app_assoc, length_app in IH. simpl in IH.
  by rewrite Nat.add_1_r in IH.
Qed.

(** A loop whose every round constructs an object and adds it to the
    session: the objects are all new, so each one becomes pending. *)
Lemma for_in_construct_add {A S} (mk : A -> instance) (upd : A -> S -> S)
    (body : A -> S -> M S) (l : list A) :
  (forall x s w,
     body x s w
     = (obj ← construct (mk x); db.session.add obj;; mret (upd x s)) w) ->
  forall s w,
    Forall (fun r => r < length (heap w))%nat (session_new w) ->
    for_in l body s w
    = (Ok (foldl (fun s x => upd x s) s l),
       World (store w) (heap w ++ (mk <$> l))
         (session_new w ++ seq (length (heap w)) (length l))).
Proof.
  intros Hbody. induction l as [|x l IH]; intros s [d h ns] Hns; simpl in *.
  - by rewrite !app_nil_r.
  - unfold mbind at 1, M_bind at 1. rewrite Hbody.
    unfold mbind, M_bind, construct, db.session.add, mret, M_ret. simpl.
    rewrite bool_decide_eq_false_2.
    2:{ intros Hin. eapply Forall_forall in Hns; [|done]. lia. }
    rewrite IH; simpl.
    + rewrite length_app, Nat.add_1_r, <- !app_assoc. done.
    + rewrite length_app, Nat.add_1_r. apply Forall_app. split.
      * eapply Forall_impl; [done|]. simpl. lia.
      * repeat constructor.
Qed.

Lemma insert_rows_app {T} `{Model T} (rows new : list T) :
  exists news, insert_rows rows new = rows ++ news
               /\ Forall2 same_columns new news.
Proof.
  revert rows. induction new as [|p new IH]; intros rows; simpl.
  - exists []. by rewrite app_nil_r.
  - destruct (IH (rows ++ [set_id (next_rowid rows) p])) as (news & -> & Hn).
    eexists (_ :: news). rewrite <- app_assoc. split; [done|].
    constructor; [|done]. by eexists.
Qed.

Lemma insert_rows_insert_rows {T} `{Model T} (rows new1 new2 : list T) :
  insert_rows (insert_rows rows new1) new2 = insert_rows rows (new1 ++ new2).
Proof.
  revert rows. induction new1 as [|p new1 IH]; intros rows; simpl; [done|].
  apply IH.
Qed.

Lemma foldr_max_snoc (m k : Z) (ks : list Z) :
  foldr Z.max k (ks ++ [m]) = Z.max m (foldr Z.max k ks).
Proof. induction ks as [|x ks IH]; simpl; [done|]. rewrite IH. lia. Qed.

Lemma foldr_max_upper (k x : Z) (ks : list Z) :
  x ∈ k :: ks -> x <= foldr Z.max k ks.
Proof.
  revert x. induction ks as [|y ks IH]; intros x Hx; simpl.
  - apply list_elem_of_singleton in Hx. lia.
  - apply elem_of_cons in Hx as [Hx|Hx].
    + specialize (IH k ltac:(left)). lia.
    + apply elem_of_cons in Hx as [Hx|Hx]; [lia|].
      specialize (IH x ltac:(by right)). lia.
Qed.

(** The keys the database hands out, for a mapped class whose key can be
    read back once it is set. *)
Section Keys.

Context {T : Type} `{Model T}.
Hypothesis get_set_id : forall (k : Z) (p : T), get_id (set_id k p) = Some k.

(** Every key in use is below the next key. *)
Lemma next_rowid_above (rows : list T) :
  Forall (fun p => forall k, get_id p = Some k -> k < next_rowid rows) rows.
Proof.
  apply Forall_forall. intros p Hp k Hk. unfold next_rowid.
  assert (k ∈ omap get_id rows) as Hin
    by (apply list_elem_of_omap; eauto).
  destruct (omap get_id rows) as [|k0 ks]; [by apply elem_of_nil in Hin|].
  apply foldr_max_upper in Hin. lia.
Qed.

Lemma next_rowid_snoc (rows : list T) (p : T) :
  next_rowid (rows ++ [set_id (next_rowid rows) p]) = next_rowid rows + 1.
Proof.
  unfold next_rowid at 1. rewrite omap_app. cbn [omap list_omap].
  rewrite get_set_id. unfold next_rowid.
  destruct (omap get_id rows) as [|k0 ks]; cbn; [done|].
  rewrite foldr_max_snoc. lia.
Qed.

(** The rows of one flush are appended with consecutive keys, the first
    of them the next key of the table. *)
Lemma insert_rows_keys (new rows : list T) :
  exists news,
    insert_rows rows new = rows ++ news
    /\ Forall2 same_columns new news
    /\ get_id <$> news
       = Some <$> seqZ (next_rowid rows) (Z.of_nat (length new)).
Proof.
  revert rows. induction new as [|p new IH]; intros rows.
  - exists []. cbn. by rewrite app_nil_r.
  - cbn [insert_rows].
    destruct (IH (rows ++ [set_id (next_rowid rows) p]))
      as (news & -> & Hcols & Hkeys).
    exists (set_id (next_rowid rows) p :: news).
    rewrite <- app_assoc. split; [done|]. split.
    + constructor; [by eexists|done].
    + rewrite next_rowid_snoc in Hkeys.
      rewrite (seqZ_cons (next_rowid rows)) by (cbn [length]; lia).
      cbn [length]. rewrite fmap_cons, get_set_id, fmap_cons. f_equal.
      rewrite Hkeys. f_equal. f_equal; lia.
Qed.

End Keys.

Lemma InputPerson_get_set_id (k : Z) (p : InputPerson.t) :
  get_id (set_id k p) = Some k.
Proof. done. Qed.

Lemma OutputPerson_get_set_id (k : Z) (p : OutputPerson.t) :
  get_id (set_id k p) = Some k.
Proof. done. Qed.

Lemma insert_into_Some {T} `{Model T} (rows new : list T) :
  insert_into (Some rows) new = Some (Some (insert_rows rows new)).
Proof. by destruct new. Qed.

Lemma omap_lookup_fresh {A B} (mk : A -> B) (l : list A) :
  omap (fun r => (mk <$> l) !! r) (seq 0 (length l)) = mk <$> l.
Proof.
  rewrite <- (length_fmap mk l). exact (omap_lookup_seq [] (mk <$> l)).
Qed.

End Session.

(* ================================================================== *)
(** * What each route does to the databases *)
(* ================================================================== *)

Section Routes.

Lemma count_person_foldl (rows : list InputPerson.t) (n c : Z) :
  foldl (fun s p => count_person p s) (n, c) rows
  = (n + Z.of_nat (length rows),
     c + Z.of_nat (length (filter (fun p => is_Fonzie p) rows))).
Proof.
  revert n c. induction rows as [|p rows IH]; intros n c; simpl.
  - f_equal; lia.
  - unfold count_person at 2. simpl. rewrite IH.
    rewrite filter_cons. destruct (decide (is_Fonzie p)) as [E|E].
    + apply Is_true_true in E. rewrite E. simpl. f_equal; lia.
    + apply Is_true_false in E. rewrite E. f_equal; lia.
Qed.

Lemma omap_as_OutputPerson (l : list OutputPerson.t) :
  omap as_OutputPerson (an_OutputPerson <$> l) = l
  /\ omap as_InputPerson (an_OutputPerson <$> l) = [].
Proof.
  induction l as [|p l [IH1 IH2]]; simpl; [done|].
  split; [f_equal; exact IH1 | exact IH2].
Qed.

Lemma omap_as_InputPerson (l : list InputPerson.t) :
  omap as_InputPerson (an_InputPerson <$> l) = l
  /\ omap as_OutputPerson (an_InputPerson <$> l) = [].
Proof.
  induction l as [|p l [IH1 IH2]]; simpl; [done|].
  split; [f_equal; exact IH1 | exact IH2].
Qed.

Lemma process_everything_request (d : database) :
  request process_everything d
  = match input_database d with
    | Some rows =>
        (Ok (summary (Z.of_nat (length rows))
               (Z.of_nat (length (filter (fun p => is_Fonzie p) rows)))),
         Database (Some rows)
           (Some (insert_rows [] (output_person_of <$> rows))))
    | None => (Raise OperationalError, Database None (Some []))
    end.
Proof.
  destruct d as [[rows|] o]; unfold request, process_everything.
  2:{ reflexivity. }
  unfold mbind, M_bind. cbn.
  rewrite (for_in_construct_add
             (fun p => an_OutputPerson (output_person_of p)) count_person).
  - rewrite count_person_foldl. unfold db.session.commit. cbn.
    rewrite omap_lookup_fresh.
    change ((fun p => an_OutputPerson (output_person_of p)) <$> rows)
      with ((an_OutputPerson ∘ output_person_of) <$> rows).
    rewrite list_fmap_compose.
    destruct (omap_as_OutputPerson (output_person_of <$> rows)) as [-> ->].
    rewrite !insert_into_Some, !Z.add_0_l. reflexivity.
  - intros p [n c] w. unfold count_person, output_person_of, is_Fonzie.
    by destruct (eq_str _ _).
  - constructor.
Qed.

(** The loop and the commit of [create_lots_of_people], for a range of
    any length. *)
Lemma lots_of_people_rounds (l : list Z) (resp : response) (d : database) :
  (for_in l (fun a _ =>
     person ← InputPerson_
       (Str (u "Someone else")) (Str (u "Too boring to have a nickname"))
       (Str (u "Unclear")) (Int 25);
     db.session.add person) ();;
   db.session.commit;;
   mret resp) (World d [] [])
  = match insert_into (input_database d)
            (replicate (length l) someone_else) with
    | Some i =>
        (Ok resp,
         World (Database i (output_database d))
           (replicate (length l) (an_InputPerson someone_else)) [])
    | None =>
        (Raise OperationalError,
         World d (replicate (length l) (an_InputPerson someone_else)) [])
    end.
Proof.
  unfold mbind at 1, M_bind at 1.
  rewrite (for_in_construct_add
             (fun _ => an_InputPerson someone_else) (fun _ s => s)).
  - cbn. rewrite (const_fmap _ l (an_InputPerson someone_else)) by done.
    unfold mbind, M_bind, db.session.commit. cbn.
    set (objs := replicate (length l) (an_InputPerson someone_else)).
    pose proof (omap_lookup_seq [] objs) as E. cbn in E.
    unfold objs in E at 2. rewrite length_replicate in E. rewrite E.
    unfold objs. rewrite <- fmap_replicate.
    destruct (omap_as_InputPerson (replicate (length l) someone_else))
      as [-> ->].
    destruct (insert_into (input_database d) _); [|done].
    by destruct d as [? [?|]].
  - by intros a [] w.
  - constructor.
Qed.

Lemma create_lots_of_people_request (d : database) :
  request create_lots_of_people d
  = match input_database d with
    | Some rows =>
        (Ok (text (u "100,000 people created in input database")),
         Database
           (Some (insert_rows rows (replicate (Z.to_nat 99999) someone_else)))
           (output_database d))
    | None => (Raise OperationalError, d)
    end.
Proof.
  unfold request, create_lots_of_people.
  rewrite lots_of_people_rounds.
  replace (length (range 1 100000)) with (Z.to_nat 99999)
    by (symmetry; apply length_seqZ).
  destruct d as [[rows|] o]; cbn [input_database output_database].
  - by rewrite insert_into_Some.
  - destruct (Z.to_nat 99999) as [|n] eqn:Hn; [lia|]. done.
Qed.

Lemma create_input_database_request (d : database) :
  request create_input_database d
  = (Ok (text (u "ok")),
     Database
       (Some [
          InputPerson.new (Some 1) (Str (u "Richard Cunningham"))
            (Str (u "Richie")) (Str (u "male")) (Int 19);
          InputPerson.new (Some 2) (Str (u "Arthur Herbert Fonzarelli"))
            (Str (u "Fonzie")) (Str (u "male")) (Int 20);
          InputPerson.new (Some 3) (Str (u "Joanie Cunningham"))
            (Str (u "Joanie")) (Str (u "female")) (Int 20)
        ])
       (output_database d)).
Proof. destruct d as [i o]. vm_compute. reflexivity. Qed.

End Routes.

(* ================================================================== *)
(** * The pipeline *)
(* ================================================================== *)

Section Pipeline.

Implicit Types (d : database) (rows : list InputPerson.t)
  (out : list OutputPerson.t).

Lemma is_Fonzie_decide (p : InputPerson.t) :
  is_Fonzie p = bool_decide (InputPerson.nickname p = Str (u "Fonzie")).
Proof.
  unfold is_Fonzie, eq_str, str_eqb.
  destruct (InputPerson.nickname p); try done.
  apply bool_decide_ext. split; [by intros ->|by intros [= ->]].
Qed.

Lemma filter_is_Fonzie rows :
  filter (fun p => is_Fonzie p) rows
  = filter (fun p => InputPerson.nickname p = Str (u "Fonzie")) rows.
Proof.
  apply list_filter_iff. intros p. rewrite is_Fonzie_decide.
  apply bool_decide_spec.
Qed.

(** The rows a run writes, one for each source record and in the same
    order, are the objects the loop built, with the key the database
    gave them. *)
Lemma pipeline_rows rows :
  Forall2 (fun p o => same_columns (output_person_of p) o)
    rows (insert_rows [] (output_person_of <$> rows)).
Proof.
  destruct (insert_rows_app [] (output_person_of <$> rows))
    as (news & -> & Hnews).
  apply (Forall2_fmap_l output_person_of same_columns) in Hnews.
  exact Hnews.
Qed.

(** A run and the source store decide the destination store. *)
Lemma process_everything_output d :
  output_database (request process_everything d).2
  = Some (default [] (insert_rows [] ∘ fmap output_person_of
                        <$> input_database d)).
Proof.
  rewrite process_everything_request. by destruct (input_database d).
Qed.

Lemma process_everything_input d :
  input_database (request process_everything d).2 = input_database d.
Proof.
  rewrite process_everything_request. by destruct (input_database d).
Qed.

(** C1: a pipeline run over a source store marks exactly the records
    whose nickname is "Fonzie" as cool: the destination store holds one
    record for each source record, with [is_cool] true when the nickname
    of the source record is "Fonzie" and false when it is not, and the
    cool count of the answer is the number of source records with that
    nickname. *)
Theorem pipeline_cool_exactly_Fonzie d rows :
  input_database d = Some rows ->
  exists out,
    request process_everything d
    = (Ok (text (str_of_int (Z.of_nat (length rows))
                 ++ u " people processed of which "
                 ++ str_of_int
                      (Z.of_nat
                         (length
                            (filter (fun p => InputPerson.nickname p
                                              = Str (u "Fonzie")) rows)))
                 ++ u " were cool")),
       Database (Some rows) (Some out))
    /\ Forall2
         (fun p o =>
            OutputPerson.nickname o = InputPerson.nickname p
            /\ (InputPerson.nickname p = Str (u "Fonzie") ->
                OutputPerson.is_cool o = Bool true)
            /\ (InputPerson.nickname p <> Str (u "Fonzie") ->
                OutputPerson.is_cool o = Bool false))
         rows out.
Proof.
  intros Hd. eexists. split.
  - rewrite process_everything_request, Hd, filter_is_Fonzie. reflexivity.
  - eapply Forall2_impl; [apply pipeline_rows|].
    intros p o [k ->]. cbn. rewrite is_Fonzie_decide.
    split; [done|]. split; intros H.
    + by rewrite bool_decide_eq_true_2.
    + by rewrite bool_decide_eq_false_2.
Qed.

Lemma pipeline_cool_exactly_Fonzie_witness :
  let rows := [
    InputPerson.new (Some 1) (Str (u "Richard Cunningham"))
      (Str (u "Richie")) (Str (u "male")) (Int 19);
    InputPerson.new (Some 2) (Str (u "Arthur Herbert Fonzarelli"))
      (Str (u "Fonzie")) (Str (u "male")) (Int 20)
  ] in
  let d := Database (Some rows) None in
  input_database d = Some rows
  /\ exists out,
       request process_everything d
       = (Ok (text (str_of_int (Z.of_nat (length rows))
                    ++ u " people processed of which "
                    ++ str_of_int
                         (Z.of_nat
                            (length
                               (filter (fun p => InputPerson.nickname p
                                                 = Str (u "Fonzie")) rows)))
                    ++ u " were cool")),
          Database (Some rows) (Some out))
       /\ Forall2
            (fun p o =>
               OutputPerson.nickname o = InputPerson.nickname p
               /\ (InputPerson.nickname p = Str (u "Fonzie") ->
                   OutputPerson.is_cool o = Bool true)
               /\ (InputPerson.nickname p <> Str (u "Fonzie") ->
                   OutputPerson.is_cool o = Bool false))
            rows out.
Proof.
  intros rows d. split; [reflexivity|].
  apply (pipeline_cool_exactly_Fonzie d rows). reflexivity.
Defined.

(** C7: for every source record a run processes, the destination record
    made from it has the name, nickname, gender and age of the source
    record unchanged; the rest of the record is the [is_cool] flag the
    run sets and the key the destination store gives the row. *)
Theorem pipeline_copies_columns d rows :
  input_database d = Some rows ->
  exists out,
    output_database (request process_everything d).2 = Some out
    /\ Forall2
         (fun p o =>
            exists (k : Z) (cool : bool),
              o = OutputPerson.new (Some k)
                    (InputPerson.name p) (InputPerson.nickname p)
                    (InputPerson.gender p) (InputPerson.age p) (Bool cool))
         rows out.
Proof.
  intros Hd. eexists. split.
  - rewrite process_everything_output, Hd. reflexivity.
  - eapply Forall2_impl; [apply pipeline_rows|].
    intros p o [k ->]. by exists k, (is_Fonzie p).
Qed.

Lemma pipeline_copies_columns_witness :
  let rows := [
    InputPerson.new (Some 7) (Str (u "Joanie Cunningham"))
      (Str (u "Joanie")) (Str (u "female")) (Int 20)
  ] in
  let d := Database (Some rows) (Some []) in
  input_database d = Some rows
  /\ exists out,
       output_database (request process_everything d).2 = Some out
       /\ Forall2
            (fun p o =>
               exists (k : Z) (cool : bool),
                 o = OutputPerson.new (Some k)
                       (InputPerson.name p) (InputPerson.nickname p)
                       (InputPerson.gender p) (InputPerson.age p) (Bool cool))
            rows out.
Proof.
  intros rows d. split; [reflexivity|].
  apply (pipeline_copies_columns d rows). reflexivity.
Defined.

(** C3: a run replaces the destination store.  Whatever the destination
    store held before, the destination after a run is decided by the
    source store alone, and a second run in succession leaves the
    databases as the first one left them: the destination holds the
    output of the second run and nothing of the first. *)
Theorem pipeline_full_replacement :
  (forall source destination destination',
     output_database
       (request process_everything (Database source destination)).2
     = output_database
         (request process_everything (Database source destination')).2)
  /\ (forall d,
        let d1 := (request process_everything d).2 in
        let d2 := (request process_everything d1).2 in
        d2 = d1
        /\ output_database d2
           = output_database
               (request process_everything
                  (Database (input_database d1) None)).2).
Proof.
  split.
  - intros i o o'. by rewrite !process_everything_output.
  - intros d d1 d2. subst d1 d2.
    rewrite !process_everything_request.
    destruct (input_database d) as [rows|]; cbn; by split.
Qed.

(** C9: schema operations on one store leave the other alone.  Dropping
    or creating the tables of one bind changes nothing in the other
    database; a pipeline run, which drops and recreates the destination
    schema, leaves the source store as it was, and seeding, which drops
    and recreates the source schema, leaves the destination store as it
    was. *)
Theorem schema_operations_independent :
  (forall w,
     input_database (store (db.drop_all bind_None w).2)
     = input_database (store w)
     /\ input_database (store (db.create_all bind_None w).2)
        = input_database (store w)
     /\ output_database (store (db.drop_all bind_input_database w).2)
        = output_database (store w)
     /\ output_database (store (db.create_all bind_input_database w).2)
        = output_database (store w))
  /\ (forall d,
        input_database (request process_everything d).2 = input_database d)
  /\ (forall d,
        output_database (request create_input_database d).2
        = output_database d).
Proof.
  split; [by intros [d h ns]|]. split.
  - apply process_everything_input.
  - intros d. by rewrite create_input_database_request.
Qed.

End Pipeline.

(* ================================================================== *)
(** * Seeding and bulk creation *)
(* ================================================================== *)

Section Seeding.

(** C2: seeding the source store, whatever the two databases held,
    leaves exactly the three sample records in it (the second
    [db.session.add(new_person)] adds an object that is pending already)
    and answers "ok"; a pipeline run after it answers "3 people processed
    of which 1 were cool", and exactly one destination record has
    [is_cool] true, the one with the nickname "Fonzie"; listing the
    destination then shows three entries, of which the second alone is
    cool. *)
Theorem seed_then_pipeline (d : database) :
  let Richie := InputPerson.new (Some 1) (Str (u "Richard Cunningham"))
                  (Str (u "Richie")) (Str (u "male")) (Int 19) in
  let Fonzie := InputPerson.new (Some 2) (Str (u "Arthur Herbert Fonzarelli"))
                  (Str (u "Fonzie")) (Str (u "male")) (Int 20) in
  let Joanie := InputPerson.new (Some 3) (Str (u "Joanie Cunningham"))
                  (Str (u "Joanie")) (Str (u "female")) (Int 20) in
  let seeded := request create_input_database d in
  let processed := request process_everything seeded.2 in
  seeded = (Ok (text (u "ok")),
            Database (Some [Richie; Fonzie; Joanie]) (output_database d))
  /\ processed.1 = Ok (text (u "3 people processed of which 1 were cool"))
  /\ input_database processed.2 = Some [Richie; Fonzie; Joanie]
  /\ (exists out,
        output_database processed.2 = Some out
        /\ length out = 3%nat
        /\ filter (fun o => OutputPerson.is_cool o = Bool true) out
           = [OutputPerson.new (Some 2) (Str (u "Arthur Herbert Fonzarelli"))
                (Str (u "Fonzie")) (Str (u "male")) (Int 20) (Bool true)])
  /\ (exists entries,
        (request show_output_database processed.2).1
        = Ok (jsonify (json_list entries))
        /\ (fun e : gmap (list N) val => e !! u "nickname") <$> entries
           = [Some (Str (u "Richie")); Some (Str (u "Fonzie"));
              Some (Str (u "Joanie"))]
        /\ (fun e : gmap (list N) val => e !! u "is_cool") <$> entries
           = [Some (Bool false); Some (Bool true); Some (Bool false)]).
Proof.
  intros Richie Fonzie Joanie seeded processed.
  assert (seeded = (Ok (text (u "ok")),
                    Database (Some [Richie; Fonzie; Joanie])
                      (output_database d))) as Hseeded
    by apply create_input_database_request.
  subst processed. rewrite Hseeded. clear Hseeded seeded.
  split; [done|]. rewrite process_everything_request.
  cbn [input_database snd fst].
  split; [by vm_compute|]. split; [done|]. split.
  - eexists. split; [done|]. by vm_compute.
  - eexists. split; [by vm_compute|]. by vm_compute.
Qed.

Lemma same_columns_replicate (n : nat) (news : list InputPerson.t) :
  Forall2 same_columns (replicate n someone_else) news ->
  length news = n
  /\ Forall
       (fun p =>
          exists k : Z,
            p = InputPerson.new (Some k) (Str (u "Someone else"))
                  (Str (u "Too boring to have a nickname"))
                  (Str (u "Unclear")) (Int 25))
       news.
Proof.
  intros H. split.
  - apply Forall2_length in H. by rewrite length_replicate in H.
  - eapply Forall2_Forall_r; [done|].
    apply Forall_replicate. intros p [k ->]. by exists k.
Qed.

(** The rows a bulk creation of [n] records adds to a table, with their
    keys. *)
Lemma bulk_rows (n : nat) (rows : list InputPerson.t) :
  next_rowid rows + Z.of_nat n - 1 <= max_rowid ->
  exists news,
    insert_rows rows (replicate n someone_else) = rows ++ news
    /\ length news = n
    /\ Forall
         (fun p =>
            exists k : Z,
              p = InputPerson.new (Some k) (Str (u "Someone else"))
                    (Str (u "Too boring to have a nickname"))
                    (Str (u "Unclear")) (Int 25)
              /\ next_rowid rows <= k <= max_rowid)
         news
    /\ InputPerson.id <$> news
       = Some <$> seqZ (next_rowid rows) (Z.of_nat n).
Proof.
  intros Hroom.
  destruct (insert_rows_keys InputPerson_get_set_id
              (replicate n someone_else) rows)
    as (news & Hins & Hcols & Hkeys).
  rewrite length_replicate in Hkeys.
  change (@get_id _ InputPerson_Model) with InputPerson.id in Hkeys.
  destruct (same_columns_replicate n news Hcols) as [Hlen Hall].
  exists news. split; [done|]. split; [done|]. split; [|done].
  apply Forall_forall. intros p Hp.
  destruct (proj1 (Forall_forall _ _) Hall p Hp) as [k Hpk].
  exists k. split; [done|].
  assert (Some k ∈ InputPerson.id <$> news) as Hk.
  { apply (list_elem_of_fmap_2 InputPerson.id) in Hp. by rewrite Hpk in Hp. }
  rewrite Hkeys in Hk. apply list_elem_of_fmap in Hk as (k' & [= <-] & Hk).
  apply elem_of_seqZ in Hk. lia.
Qed.

(** C8, as amended: one call of [create_lots_of_people] on a source
    store whose table exists, with room below the largest key for 99,999
    keys more, inserts exactly 99,999 records, each with the name
    "Someone else", the age 25 and the same nickname and gender; they
    come after the rows that were there, with the 99,999 keys that follow
    the keys in use, the destination store is as it was and the answer is
    a line of plain text. *)
Theorem create_lots_of_people_inserts_99999 (d : database)
    (rows : list InputPerson.t) :
  input_database d = Some rows ->
  next_rowid rows + 99998 <= max_rowid ->
  exists news,
    request create_lots_of_people d
    = (Ok (text (u "100,000 people created in input database")),
       Database (Some (rows ++ news)) (output_database d))
    /\ Z.of_nat (length news) = 99999
    /\ Forall
         (fun p =>
            exists k : Z,
              p = InputPerson.new (Some k) (Str (u "Someone else"))
                    (Str (u "Too boring to have a nickname"))
                    (Str (u "Unclear")) (Int 25)
              /\ next_rowid rows <= k <= max_rowid)
         news
    /\ InputPerson.id <$> news = Some <$> seqZ (next_rowid rows) 99999
    /\ Forall
         (fun p => forall k, InputPerson.id p = Some k -> k < next_rowid rows)
         rows.
Proof.
  intros Hd Hroom. rewrite create_lots_of_people_request, Hd.
  destruct (bulk_rows (Z.to_nat 99999) rows)
    as (news & -> & Hlen & Hall & Hkeys); [lia|].
  rewrite Z2Nat.id in Hkeys by lia.
  exists news. split; [done|]. split; [lia|]. split; [done|].
  split; [done|]. exact (next_rowid_above (T:=InputPerson.t) rows).
Qed.

Lemma create_lots_of_people_inserts_99999_witness :
  let Richie := InputPerson.new (Some 1) (Str (u "Richard Cunningham"))
                  (Str (u "Richie")) (Str (u "male")) (Int 19) in
  let d := Database (Some [Richie]) None in
  input_database d = Some [Richie]
  /\ next_rowid [Richie] + 99998 <= max_rowid
  /\ exists news,
       request create_lots_of_people d
       = (Ok (text (u "100,000 people created in input database")),
          Database (Some ([Richie] ++ news)) (output_database d))
       /\ Z.of_nat (length news) = 99999
       /\ Forall
            (fun p =>
               exists k : Z,
                 p = InputPerson.new (Some k) (Str (u "Someone else"))
                       (Str (u "Too boring to have a nickname"))
                       (Str (u "Unclear")) (Int 25)
                 /\ next_rowid [Richie] <= k <= max_rowid)
            news
       /\ InputPerson.id <$> news
          = Some <$> seqZ (next_rowid [Richie]) 99999
       /\ Forall
            (fun p =>
               forall k, InputPerson.id p = Some k -> k < next_rowid [Richie])
            [Richie].
Proof.
  intros Richie d.
  assert (next_rowid [Richie] + 99998 <= max_rowid) as Hroom
    by (vm_compute; discriminate).
  split; [reflexivity|]. split; [exact Hroom|].
  apply (create_lots_of_people_inserts_99999 d [Richie]);
    [reflexivity | exact Hroom].
Defined.

(** C8 as first stated fails where the table of the source store is
    missing: the handler creates no table, the INSERT of the commit
    fails, and no record is inserted. *)
Lemma create_lots_of_people_missing_table_counterexample :
  let d := Database None None in
  request create_lots_of_people d = (Raise OperationalError, d)
  /\ ~ (exists news,
          input_database (request create_lots_of_people d).2 = Some news
          /\ Z.of_nat (length news) = 99999).
Proof.
  intros d.
  assert (request create_lots_of_people d = (Raise OperationalError, d))
    as Hfail by (by rewrite create_lots_of_people_request).
  split; [exact Hfail|]. rewrite Hfail. by intros (news & [=] & _).
Qed.

End Seeding.

(* ================================================================== *)
(** * Listing the stores *)
(* ================================================================== *)

Section Listing.

Implicit Types (d : database) (p q : OutputPerson.t).

(** The loop of a listing stops at the first record whose entry cannot
    be built; nothing catches what that record raises. *)
Lemma for_in_first_raise {A S} (body : A -> S -> M S)
    (ok : A -> Prop) (pre post : list A) (x : A) (e : exn) :
  (forall y s w, ok y -> exists s', body y s w = (Ok s', w)) ->
  (forall s w, body x s w = (Raise e, w)) ->
  Forall ok pre ->
  forall s w, for_in (pre ++ x :: post) body s w = (Raise e, w).
Proof.
  intros Hok Hx. induction 1 as [|y pre Hy _ IH]; intros s w; simpl.
  - unfold mbind, M_bind. by rewrite Hx.
  - unfold mbind, M_bind. destruct (Hok y s w Hy) as [s' ->]. apply IH.
Qed.

Lemma show_output_database_raises d (pre post : list OutputPerson.t) p e :
  output_database d = Some (pre ++ p :: post) ->
  Forall (fun q => exists s, OutputPerson.first_name q = Ok s) pre ->
  OutputPerson.first_name p = Raise e ->
  (request show_output_database d).1 = Raise e.
Proof.
  intros Hd Hpre Hp.
  unfold request, show_output_database, try_except_return,
    OutputPerson_query_all.
  cbn [store]. rewrite Hd. unfold mbind at 1, M_bind at 1.
  erewrite (for_in_first_raise _
              (fun q => exists s, OutputPerson.first_name q = Ok s));
    [done| | |done].
  - intros q s w [t Ht]. unfold mbind, M_bind, eval. rewrite Ht. by eexists.
  - intros s w. unfold mbind, M_bind, eval. by rewrite Hp.
Qed.

(** C4: with the table of the destination store missing,
    [show_output_database] answers with a JSON object of the two keys
    [status], which is "error", and [what_happened], a message that is
    not empty, and does not fail; with the table of the source store
    missing, [show_input_database] and [process_everything] end in the
    error of the query, which nothing catches. *)
Theorem missing_table_handling :
  (forall d,
     output_database d = None ->
     exists (payload : gmap (list N) val) (message : list N),
       request show_output_database d = (Ok (jsonify (json_dict payload)), d)
       /\ dom payload = {[ u "status"; u "what_happened" ]}
       /\ payload !! u "status" = Some (Str (u "error"))
       /\ payload !! u "what_happened" = Some (Str message)
       /\ message <> [])
  /\ (forall d,
        input_database d = None ->
        (request show_input_database d).1 = Raise OperationalError
        /\ (request process_everything d).1 = Raise OperationalError).
Proof.
  split.
  - intros [i o] Hd. simpl in Hd. subst o.
    eexists _, _. split; [reflexivity|].
    split; [|split; [|split]].
    + apply set_eq. intros k. rewrite elem_of_dom.
      rewrite elem_of_union, !elem_of_singleton. split.
      * intros [v Hv]. apply elem_of_list_to_map_2 in Hv.
        rewrite !elem_of_cons in Hv.
        destruct Hv as [[= -> _]|[[= -> _]|[]%elem_of_nil]]; auto.
      * intros [->| ->]; eexists; vm_compute; reflexivity.
    + by vm_compute.
    + by vm_compute.
    + by vm_compute.
  - intros [i o] Hd. simpl in Hd. subst i. split; reflexivity.
Qed.

Lemma missing_table_handling_witness :
  let d := Database None None in
  (output_database d = None
   /\ exists (payload : gmap (list N) val) (message : list N),
        request show_output_database d = (Ok (jsonify (json_dict payload)), d)
        /\ dom payload = {[ u "status"; u "what_happened" ]}
        /\ payload !! u "status" = Some (Str (u "error"))
        /\ payload !! u "what_happened" = Some (Str message)
        /\ message <> [])
  /\ (input_database d = None
      /\ (request show_input_database d).1 = Raise OperationalError
      /\ (request process_everything d).1 = Raise OperationalError).
Proof.
  intros d. split.
  - split; [reflexivity|].
    apply (proj1 missing_table_handling d). reflexivity.
  - split; [reflexivity|].
    apply (proj2 missing_table_handling d). reflexivity.
Defined.

End Listing.

(* ================================================================== *)
(** * The derived first name *)
(* ================================================================== *)

Section FirstName.

Implicit Types (d : database) (p : OutputPerson.t) (s : list N).

(** C5: for a destination record whose name holds at least one token,
    [first_name] is the first whitespace-delimited token of the name; for
    the name "Joanie Cunningham" it is "Joanie". *)
Theorem first_name_first_token :
  (forall p s,
     OutputPerson.name p = Str s ->
     has_token s ->
     OutputPerson.first_name p = Ok (first_token s))
  /\ (forall p,
        OutputPerson.name p = Str (u "Joanie Cunningham") ->
        OutputPerson.first_name p = Ok (u "Joanie")).
Proof.
  split.
  - intros p s Hp Hs. unfold OutputPerson.first_name. rewrite Hp.
    by destruct (split_has_token s Hs) as [rest ->].
  - intros p Hp. unfold OutputPerson.first_name. rewrite Hp.
    by vm_compute.
Qed.

Lemma first_name_first_token_witness :
  let p := OutputPerson.new (Some 3) (Str (u "Joanie Cunningham"))
             (Str (u "Joanie")) (Str (u "female")) (Int 20) (Bool false) in
  (OutputPerson.name p = Str (u "Joanie Cunningham")
   /\ has_token (u "Joanie Cunningham")
   /\ OutputPerson.first_name p = Ok (first_token (u "Joanie Cunningham")))
  /\ first_token (u "Joanie Cunningham") = u "Joanie".
Proof.
  intros p.
  assert (has_token (u "Joanie Cunningham")) as Htoken
    by (apply Exists_cons_hd; reflexivity).
  split; [|reflexivity].
  split; [reflexivity|]. split; [exact Htoken|].
  apply (proj1 first_name_first_token p (u "Joanie Cunningham"));
    [reflexivity | exact Htoken].
Defined.

(** C6: [first_name] of a destination record whose name is the empty
    string fails with an [IndexError], with no value in its place; and
    [show_output_database], whose [try] ends before the loop, fails with
    that error when it reaches such a record. *)
Theorem first_name_empty_name_fails :
  (forall p,
     OutputPerson.name p = Str [] ->
     OutputPerson.first_name p = Raise IndexError)
  /\ (forall d (pre post : list OutputPerson.t) p,
        output_database d = Some (pre ++ p :: post) ->
        Forall (fun q => exists t, OutputPerson.first_name q = Ok t) pre ->
        OutputPerson.name p = Str [] ->
        (request show_output_database d).1 = Raise IndexError).
Proof.
  assert (forall p, OutputPerson.name p = Str [] ->
                    OutputPerson.first_name p = Raise IndexError) as Hempty.
  { intros p Hp. unfold OutputPerson.first_name. by rewrite Hp. }
  split; [done|]. intros d pre post p Hd Hpre Hp.
  eapply show_output_database_raises; eauto.
Qed.

Lemma first_name_empty_name_fails_witness :
  let Richie := OutputPerson.new (Some 1) (Str (u "Richard Cunningham"))
                  (Str (u "Richie")) (Str (u "male")) (Int 19) (Bool false) in
  let nameless := OutputPerson.new (Some 2) (Str []) (Str (u "Fonzie"))
                    (Str (u "male")) (Int 20) (Bool true) in
  let d := Database None (Some ([Richie] ++ nameless :: [])) in
  (OutputPerson.name nameless = Str []
   /\ OutputPerson.first_name nameless = Raise IndexError)
  /\ (output_database d = Some ([Richie] ++ nameless :: [])
      /\ Forall (fun q => exists t, OutputPerson.first_name q = Ok t) [Richie]
      /\ OutputPerson.name nameless = Str []
      /\ (request show_output_database d).1 = Raise IndexError).
Proof.
  intros Richie nameless d.
  assert (Forall (fun q => exists t, OutputPerson.first_name q = Ok t)
            [Richie]) as Hpre.
  { constructor; [|constructor]. eexists. vm_compute. reflexivity. }
  split.
  - split; [reflexivity|].
    apply (proj1 first_name_empty_name_fails nameless). reflexivity.
  - split; [reflexivity|]. split; [exact Hpre|]. split; [reflexivity|].
    apply (proj2 first_name_empty_name_fails d [Richie] [] nameless);
      [reflexivity | exact Hpre | reflexivity].
Defined.

(** C10: [first_name] fails in the same way for every name made of
    whitespace characters only, such as a single space: the split yields
    no word, indexing the first one is an [IndexError], and
    [show_output_database] fails with it when it reaches such a
    record. *)
Theorem first_name_whitespace_name_fails :
  (forall p s,
     OutputPerson.name p = Str s ->
     Forall (fun c => isspace c = true) s ->
     OutputPerson.first_name p = Raise IndexError)
  /\ (forall d (pre post : list OutputPerson.t) p s,
        output_database d = Some (pre ++ p :: post) ->
        Forall (fun q => exists t, OutputPerson.first_name q = Ok t) pre ->
        OutputPerson.name p = Str s ->
        Forall (fun c => isspace c = true) s ->
        (request show_output_database d).1 = Raise IndexError).
Proof.
  assert (forall p s, OutputPerson.name p = Str s ->
                      Forall (fun c => isspace c = true) s ->
                      OutputPerson.first_name p = Raise IndexError) as Hblank.
  { intros p s Hp Hs. unfold OutputPerson.first_name.
    by rewrite Hp, split_whitespace. }
  split; [done|]. intros d pre post p s Hd Hpre Hp Hs.
  eapply show_output_database_raises; eauto.
Qed.

Lemma first_name_whitespace_name_fails_witness :
  let blank := OutputPerson.new (Some 1) (Str (u " ")) (Str (u "Fonzie"))
                 (Str (u "male")) (Int 20) (Bool true) in
  let d := Database None (Some ([] ++ blank :: [])) in
  (OutputPerson.name blank = Str (u " ")
   /\ Forall (fun c => isspace c = true) (u " ")
   /\ OutputPerson.first_name blank = Raise IndexError)
  /\ (output_database d = Some ([] ++ blank :: [])
      /\ (request show_output_database d).1 = Raise IndexError).
Proof.
  intros blank d.
  assert (Forall (fun c => isspace c = true) (u " ")) as Hblank
    by (repeat constructor).
  split.
  - split; [reflexivity|]. split; [exact Hblank|].
    apply (proj1 first_name_whitespace_name_fails blank (u " "));
      [reflexivity | exact Hblank].
  - split; [reflexivity|].
    apply (proj2 first_name_whitespace_name_fails d [] [] blank (u " "));
      [reflexivity | constructor | reflexivity | exact Hblank].
Defined.

End FirstName.

(* ================================================================== *)
(** * More on the first name *)
(* ================================================================== *)

Section FirstNameMore.

Implicit Types (p : OutputPerson.t) (s t : list N) (c : N).

Lemma read_token_no_whitespace s :
  Forall (fun c => isspace c = false) (read_token s).
Proof.
  induction s as [|c s IH]; simpl; [constructor|].
  destruct (isspace c) eqn:E; by constructor.
Qed.

Lemma skip_whitespace_app s t :
  Forall (fun c => isspace c = true) s ->
  skip_whitespace (s ++ t) = skip_whitespace t.
Proof. induction 1 as [|c s Hc _ IH]; simpl; [done|]. by rewrite Hc. Qed.

Lemma read_token_app s t :
  Forall (fun c => isspace c = false) s ->
  read_token (s ++ t) = s ++ read_token t.
Proof.
  induction 1 as [|c s Hc _ IH]; simpl; [done|]. by rewrite Hc, IH.
Qed.

Lemma has_token_or_whitespace s :
  has_token s \/ Forall (fun c => isspace c = true) s.
Proof.
  induction s as [|c s [IH|IH]].
  - right. constructor.
  - left. by apply Exists_cons_tl.
  - destruct (isspace c) eqn:E.
    + right. by constructor.
    + left. by apply Exists_cons_hd.
Qed.

Lemma first_token_has_token s :
  has_token s ->
  first_token s <> []
  /\ Forall (fun c => isspace c = false) (first_token s).
Proof.
  intros (c & s' & Hs & Hc)%skip_whitespace_has_token.
  split; [|apply read_token_no_whitespace].
  unfold first_token. rewrite Hs. simpl. by rewrite Hc.
Qed.

(** X1: for a record whose name is a string, [first_name] has a value
    exactly when the name has a character that is not whitespace; the
    value is then a non-empty string without whitespace, and otherwise
    the property raises [IndexError]. *)
Theorem first_name_defined_iff_token p s :
  OutputPerson.name p = Str s ->
  (has_token s <-> exists t, OutputPerson.first_name p = Ok t)
  /\ (forall t, OutputPerson.first_name p = Ok t ->
               t <> [] /\ Forall (fun c => isspace c = false) t)
  /\ (~ has_token s -> OutputPerson.first_name p = Raise IndexError).
Proof.
  intros Hp. unfold OutputPerson.first_name. rewrite Hp.
  destruct (has_token_or_whitespace s) as [Hs|Hs].
  - destruct (split_has_token s Hs) as [rest ->]. simpl.
    split; [split; [intros _; by eexists | done]|]. split; [|done].
    intros t [= <-]. by apply first_token_has_token.
  - rewrite (split_whitespace s Hs). simpl.
    assert (~ has_token s) as Hno.
    { intros Hex. apply Exists_exists in Hex as (c & Hin & Hc).
      eapply Forall_forall in Hs; [|done]. congruence. }
    split; [|split; [done|done]].
    split; [done|]. by intros [t ?].
Qed.

Lemma first_name_defined_iff_token_witness :
  let p := OutputPerson.new (Some 1) (Str (u "  Arthur Herbert Fonzarelli"))
             (Str (u "Fonzie")) (Str (u "male")) (Int 20) (Bool true) in
  let s := u "  Arthur Herbert Fonzarelli" in
  OutputPerson.name p = Str s
  /\ (has_token s <-> exists t, OutputPerson.first_name p = Ok t)
  /\ (forall t, OutputPerson.first_name p = Ok t ->
               t <> [] /\ Forall (fun c => isspace c = false) t)
  /\ (~ has_token s -> OutputPerson.first_name p = Raise IndexError).
Proof.
  intros p s. split; [reflexivity|].
  apply (first_name_defined_iff_token p s). reflexivity.
Defined.

(** X2: [first_name] skips the whitespace in front of the name and
    ignores everything from the first whitespace after the first word:
    for a name made of whitespace, then a non-empty word without
    whitespace, then nothing or a whitespace character and any text, it
    is that word. *)
Theorem first_name_ignores_rest p (ws tok rest : list N) :
  OutputPerson.name p = Str (ws ++ tok ++ rest) ->
  Forall (fun c => isspace c = true) ws ->
  tok <> [] ->
  Forall (fun c => isspace c = false) tok ->
  (rest = [] \/ exists c rest', rest = c :: rest' /\ isspace c = true) ->
  OutputPerson.first_name p = Ok tok.
Proof.
  intros Hp Hws Htok Hns Hrest.
  assert (has_token (ws ++ tok ++ rest)) as Hhas.
  { destruct tok as [|c tok]; [done|]. apply Exists_app. right.
    apply Exists_cons_hd. by inversion Hns. }
  unfold OutputPerson.first_name. rewrite Hp.
  destruct (split_has_token _ Hhas) as [more ->]. simpl. f_equal.
  unfold first_token. rewrite skip_whitespace_app by done.
  assert (skip_whitespace (tok ++ rest) = tok ++ rest) as ->.
  { destruct tok as [|c tok]; [done|].
    inversion Hns as [|? ? Hc Htl]; subst. cbn [app skip_whitespace].
    by rewrite Hc. }
  rewrite read_token_app by done.
  destruct Hrest as [->|(c' & rest' & -> & Hc')]; cbn [read_token].
  - by rewrite app_nil_r.
  - by rewrite Hc', app_nil_r.
Qed.

Lemma first_name_ignores_rest_witness :
  let p := OutputPerson.new (Some 1) (Str (u "  Arthur Herbert Fonzarelli"))
             (Str (u "Fonzie")) (Str (u "male")) (Int 20) (Bool true) in
  let ws := u "  " in
  let tok := u "Arthur" in
  let rest := u " Herbert Fonzarelli" in
  OutputPerson.name p = Str (ws ++ tok ++ rest)
  /\ Forall (fun c => isspace c = true) ws
  /\ tok <> []
  /\ Forall (fun c => isspace c = false) tok
  /\ (rest = [] \/ exists c rest', rest = c :: rest' /\ isspace c = true)
  /\ OutputPerson.first_name p = Ok tok.
Proof.
  intros p ws tok rest.
  assert (Forall (fun c => isspace c = true) ws) as Hws
    by (repeat constructor).
  assert (tok <> []) as Htok by (vm_compute; discriminate).
  assert (Forall (fun c => isspace c = false) tok) as Hns
    by (repeat constructor).
  assert (rest = [] \/ exists c rest', rest = c :: rest' /\ isspace c = true)
    as Hrest by (right; eexists _, _; split; reflexivity).
  split; [reflexivity|]. split; [exact Hws|]. split; [exact Htok|].
  split; [exact Hns|]. split; [exact Hrest|].
  apply (first_name_ignores_rest p ws tok rest);
    [reflexivity | exact Hws | exact Htok | exact Hns | exact Hrest].
Defined.

(** X3: [first_name] of a record whose name is not a string (a NULL
    name, read back as [None], or a number) raises [TypeError], and
    [show_output_database] fails with it at the first such record. *)
Theorem first_name_not_a_string_fails :
  (forall p,
     (forall s, OutputPerson.name p <> Str s) ->
     OutputPerson.first_name p = Raise TypeError)
  /\ (forall d (pre post : list OutputPerson.t) p,
        output_database d = Some (pre ++ p :: post) ->
        Forall (fun q => exists t, OutputPerson.first_name q = Ok t) pre ->
        (forall s, OutputPerson.name p <> Str s) ->
        (request show_output_database d).1 = Raise TypeError).
Proof.
  assert (forall p, (forall s, OutputPerson.name p <> Str s) ->
                    OutputPerson.first_name p = Raise TypeError) as Hnot.
  { intros p Hp. unfold OutputPerson.first_name.
    destruct (OutputPerson.name p) eqn:E; try done. by destruct (Hp s). }
  split; [done|]. intros d pre post p Hd Hpre Hp.
  eapply show_output_database_raises; eauto.
Qed.

Lemma first_name_not_a_string_fails_witness :
  let null := OutputPerson.new (Some 1) None_ (Str (u "Fonzie"))
                (Str (u "male")) (Int 20) (Bool true) in
  let d := Database None (Some ([] ++ null :: [])) in
  ((forall s, OutputPerson.name null <> Str s)
   /\ OutputPerson.first_name null = Raise TypeError)
  /\ (output_database d = Some ([] ++ null :: [])
      /\ (request show_output_database d).1 = Raise TypeError).
Proof.
  intros null d.
  assert (forall s, OutputPerson.name null <> Str s) as Hnull
    by (intros s; discriminate).
  split.
  - split; [exact Hnull|].
    apply (proj1 first_name_not_a_string_fails null). exact Hnull.
  - split; [reflexivity|].
    apply (proj2 first_name_not_a_string_fails d [] [] null);
      [reflexivity | constructor | exact Hnull].
Defined.

End FirstNameMore.

(* ================================================================== *)
(** * More on the listings *)
(* ================================================================== *)

Section ListingMore.

Implicit Types (d : database).

Lemma for_in_all_ok {A S} (ok : A -> Prop) (f : A -> S -> S)
    (body : A -> S -> M S) (l : list A) :
  (forall x s w, ok x -> body x s w = (Ok (f x s), w)) ->
  Forall ok l ->
  forall s w, for_in l body s w = (Ok (foldl (fun s x => f x s) s l), w).
Proof.
  intros Hbody. induction 1 as [|x l Hx _ IH]; intros s w; simpl; [done|].
  unfold mbind, M_bind. rewrite Hbody by done. apply IH.
Qed.

Lemma for_in_world_unchanged {A S} (body : A -> S -> M S) (l : list A) :
  (forall x s w, (body x s w).2 = w) ->
  forall s w, (for_in l body s w).2 = w.
Proof.
  intros Hbody. induction l as [|x l IH]; intros s w; simpl; [done|].
  unfold mbind, M_bind. specialize (Hbody x s w).
  destruct (body x s w) as [[s'|e] w']; simpl in Hbody; subst w'; [|done].
  apply IH.
Qed.

Lemma foldl_snoc_fmap {A B} (g : A -> B) (l : list A) (acc : list B) :
  foldl (fun acc x => acc ++ [g x]) acc l = acc ++ (g <$> l).
Proof.
  revert acc. induction l as [|x l IH]; intros acc; simpl.
  - by rewrite app_nil_r.
  - by rewrite IH, <- app_assoc.
Qed.

Lemma input_entry_fields (p : InputPerson.t) :
  dom (input_entry p)
  = {[ u "id"; u "name"; u "nickname"; u "gender"; u "age" ]}
  /\ input_entry p !! u "id" = Some (of_int (InputPerson.id p))
  /\ input_entry p !! u "name" = Some (InputPerson.name p)
  /\ input_entry p !! u "nickname" = Some (InputPerson.nickname p)
  /\ input_entry p !! u "gender" = Some (InputPerson.gender p)
  /\ input_entry p !! u "age" = Some (InputPerson.age p).
Proof. repeat split; vm_compute; reflexivity. Qed.

Lemma output_entry_fields (p : OutputPerson.t) (t : list N) :
  dom (output_entry p t)
  = {[ u "id"; u "name"; u "nickname"; u "gender"; u "age"; u "is_cool";
       u "first_name" ]}
  /\ output_entry p t !! u "id" = Some (of_int (OutputPerson.id p))
  /\ output_entry p t !! u "name" = Some (OutputPerson.name p)
  /\ output_entry p t !! u "nickname" = Some (OutputPerson.nickname p)
  /\ output_entry p t !! u "gender" = Some (OutputPerson.gender p)
  /\ output_entry p t !! u "age" = Some (OutputPerson.age p)
  /\ output_entry p t !! u "is_cool" = Some (OutputPerson.is_cool p)
  /\ output_entry p t !! u "first_name" = Some (Str t).
Proof. repeat split; vm_compute; reflexivity. Qed.

Lemma show_input_database_request d :
  request show_input_database d
  = match input_database d with
    | Some rows => (Ok (jsonify (json_list (input_entry <$> rows))), d)
    | None => (Raise OperationalError, d)
    end.
Proof.
  unfold request, show_input_database, InputPerson_query_all.
  unfold mbind at 1, M_bind at 1. cbn [store].
  destruct (input_database d) as [rows|]; [|done].
  unfold mbind at 1, M_bind at 1.
  rewrite (for_in_all_ok (fun _ => True)
             (fun p acc => acc ++ [input_entry p])).
  - by rewrite (foldl_snoc_fmap input_entry).
  - done.
  - by apply Forall_true.
Qed.

Lemma show_output_database_entries d (rows : list OutputPerson.t) :
  output_database d = Some rows ->
  Forall (fun p => exists t, OutputPerson.first_name p = Ok t) rows ->
  request show_output_database d
  = (Ok (jsonify (json_list
           ((fun p => output_entry p (value_of (OutputPerson.first_name p)))
              <$> rows))), d).
Proof.
  intros Hd Hrows.
  unfold request, show_output_database, try_except_return,
    OutputPerson_query_all.
  cbn [store]. rewrite Hd. unfold mbind at 1, M_bind at 1.
  rewrite (for_in_all_ok
             (fun p => exists t, OutputPerson.first_name p = Ok t)
             (fun p acc =>
                acc ++ [output_entry p
                          (value_of (OutputPerson.first_name p))])).
  - by rewrite (foldl_snoc_fmap
                  (fun p => output_entry p
                              (value_of (OutputPerson.first_name p)))).
  - intros p acc w [t Ht]. unfold mbind, M_bind, eval. by rewrite Ht.
  - done.
Qed.

(** X4: on a source store whose table exists, [show_input_database]
    answers with one JSON object for each row, in the order of the
    table; the object has exactly the keys id, name, nickname, gender and
    age, with the values of the row (a row of any content is listed,
    nothing is computed from it), and the databases are as before. *)
Theorem show_input_database_lists_rows d (rows : list InputPerson.t) :
  input_database d = Some rows ->
  exists entries,
    request show_input_database d = (Ok (jsonify (json_list entries)), d)
    /\ Forall2
         (fun p (e : gmap (list N) val) =>
            dom e = {[ u "id"; u "name"; u "nickname"; u "gender"; u "age" ]}
            /\ e !! u "id" = Some (of_int (InputPerson.id p))
            /\ e !! u "name" = Some (InputPerson.name p)
            /\ e !! u "nickname" = Some (InputPerson.nickname p)
            /\ e !! u "gender" = Some (InputPerson.gender p)
            /\ e !! u "age" = Some (InputPerson.age p))
         rows entries.
Proof.
  intros Hd. exists (input_entry <$> rows). split.
  - by rewrite show_input_database_request, Hd.
  - apply Forall2_fmap_r, Forall_Forall2_diag, Forall_forall.
    intros p _. apply input_entry_fields.
Qed.

Lemma show_input_database_lists_rows_witness :
  let rows := [
    InputPerson.new (Some 4) None_ (Str (u "Richie")) (Str (u "male")) (Int 19);
    InputPerson.new (Some 9) (Str (u "Joanie Cunningham")) (Str (u "Joanie"))
      (Str (u "female")) (Int 20)
  ] in
  let d := Database (Some rows) None in
  input_database d = Some rows
  /\ exists entries,
       request show_input_database d = (Ok (jsonify (json_list entries)), d)
       /\ Forall2
            (fun p (e : gmap (list N) val) =>
               dom e
               = {[ u "id"; u "name"; u "nickname"; u "gender"; u "age" ]}
               /\ e !! u "id" = Some (of_int (InputPerson.id p))
               /\ e !! u "name" = Some (InputPerson.name p)
               /\ e !! u "nickname" = Some (InputPerson.nickname p)
               /\ e !! u "gender" = Some (InputPerson.gender p)
               /\ e !! u "age" = Some (InputPerson.age p))
            rows entries.
Proof.
  intros rows d. split; [reflexivity|].
  apply (show_input_database_lists_rows d rows). reflexivity.
Defined.

(** X5: on a destination store whose table exists and in which every
    row has a first name, [show_output_database] answers with one JSON
    object for each row, in the order of the table; the object has
    exactly the six stored keys, with the values of the row, and the key
    first_name, with the first name computed from the name of that row;
    the databases are as before. *)
Theorem show_output_database_lists_rows d (rows : list OutputPerson.t) :
  output_database d = Some rows ->
  Forall (fun p => exists t, OutputPerson.first_name p = Ok t) rows ->
  exists entries,
    request show_output_database d = (Ok (jsonify (json_list entries)), d)
    /\ Forall2
         (fun p (e : gmap (list N) val) =>
            dom e = {[ u "id"; u "name"; u "nickname"; u "gender"; u "age";
                       u "is_cool"; u "first_name" ]}
            /\ e !! u "id" = Some (of_int (OutputPerson.id p))
            /\ e !! u "name" = Some (OutputPerson.name p)
            /\ e !! u "nickname" = Some (OutputPerson.nickname p)
            /\ e !! u "gender" = Some (OutputPerson.gender p)
            /\ e !! u "age" = Some (OutputPerson.age p)
            /\ e !! u "is_cool" = Some (OutputPerson.is_cool p)
            /\ exists t, OutputPerson.first_name p = Ok t
                         /\ e !! u "first_name" = Some (Str t))
         rows entries.
Proof.
  intros Hd Hrows. eexists. split.
  - by apply show_output_database_entries.
  - apply Forall2_fmap_r, Forall_Forall2_diag.
    eapply Forall_impl; [exact Hrows|]. intros p [t Ht]. cbn.
    rewrite Ht. cbn [value_of].
    destruct (output_entry_fields p t) as (?&?&?&?&?&?&?&?).
    repeat (split; [done|]). by exists t.
Qed.

Lemma show_output_database_lists_rows_witness :
  let rows := [
    OutputPerson.new (Some 1) (Str (u "Joanie Cunningham")) (Str (u "Joanie"))
      (Str (u "female")) (Int 20) (Bool false)
  ] in
  let d := Database None (Some rows) in
  output_database d = Some rows
  /\ Forall (fun p => exists t, OutputPerson.first_name p = Ok t) rows
  /\ exists entries,
       request show_output_database d = (Ok (jsonify (json_list entries)), d)
       /\ Forall2
            (fun p (e : gmap (list N) val) =>
               dom e = {[ u "id"; u "name"; u "nickname"; u "gender"; u "age";
                          u "is_cool"; u "first_name" ]}
               /\ e !! u "id" = Some (of_int (OutputPerson.id p))
               /\ e !! u "name" = Some (OutputPerson.name p)
               /\ e !! u "nickname" = Some (OutputPerson.nickname p)
               /\ e !! u "gender" = Some (OutputPerson.gender p)
               /\ e !! u "age" = Some (OutputPerson.age p)
               /\ e !! u "is_cool" = Some (OutputPerson.is_cool p)
               /\ exists t, OutputPerson.first_name p = Ok t
                            /\ e !! u "first_name" = Some (Str t))
            rows entries.
Proof.
  intros rows d.
  assert (Forall (fun p => exists t, OutputPerson.first_name p = Ok t) rows)
    as Hrows.
  { constructor; [|constructor]. eexists. vm_compute. reflexivity. }
  split; [reflexivity|]. split; [exact Hrows|].
  apply (show_output_database_lists_rows d rows); [reflexivity | exact Hrows].
Defined.

(** X6: the two listings and the index page never change a database:
    whatever the databases hold, and whether the request answers or
    fails, they are afterwards what they were. *)
Theorem listings_read_only d :
  (request show_input_database d).2 = d
  /\ (request show_output_database d).2 = d
  /\ (request index_route d).2 = d.
Proof.
  split; [|split; [|done]].
  - rewrite show_input_database_request. by destruct (input_database d).
  - unfold request, show_output_database, try_except_return,
      OutputPerson_query_all.
    cbn [store]. destruct (output_database d) as [rows|]; [|done].
    unfold mbind at 1, M_bind at 1.
    match goal with
    | |- context [for_in rows ?body ?s ?w] =>
        pose proof (for_in_world_unchanged body rows) as Hloop;
        specialize (Hloop
          ltac:(intros p acc w'; unfold mbind, M_bind, eval;
                by destruct (OutputPerson.first_name p)) s w);
        destruct (for_in rows body s w) as [[entries|e] w']
    end; simpl in Hloop; by subst w'.
Qed.

End ListingMore.

(* ================================================================== *)
(** * More on the pipeline and on bulk creation *)
(* ================================================================== *)

Section PipelineMore.

Implicit Types (d : database) (rows : list InputPerson.t)
  (out : list OutputPerson.t).

Lemma foldr_max_seqZ (k : nat) (m init : Z) :
  init <= m ->
  foldr Z.max init (seqZ m (Z.of_nat (S k))) = m + Z.of_nat k.
Proof.
  revert m. induction k as [|k IH]; intros m Hm.
  - rewrite seqZ_cons, seqZ_nil by lia. cbn [foldr]. lia.
  - rewrite seqZ_cons by lia. cbn [foldr].
    replace (Z.pred (Z.of_nat (S (S k)))) with (Z.of_nat (S k)) by lia.
    rewrite IH by lia. lia.
Qed.

Lemma omap_of_fmap_Some {A B} (f : A -> option B) (l : list A) (k : list B) :
  f <$> l = Some <$> k -> omap f l = k.
Proof.
  revert k. induction l as [|x l IH]; intros [|y k] [=]; simpl; [done|].
  rewrite H0. simpl. f_equal. by apply IH.
Qed.

(** A table whose keys are 1, 2, ..., in this order, gives the next row
    the next number. *)
Lemma next_rowid_numbered out :
  OutputPerson.id <$> out = Some <$> seqZ 1 (Z.of_nat (length out)) ->
  next_rowid out = 1 + Z.of_nat (length out).
Proof.
  intros Hids. unfold next_rowid.
  change (@get_id _ OutputPerson_Model) with OutputPerson.id.
  rewrite (omap_of_fmap_Some _ _ _ Hids).
  destruct (length out) as [|n]; [done|].
  rewrite seqZ_cons by lia.
  replace (Z.pred (Z.of_nat (S n))) with (Z.of_nat n) by lia.
  destruct n as [|n]; [done|].
  rewrite foldr_max_seqZ by lia. lia.
Qed.

Lemma insert_rows_numbered (out new : list OutputPerson.t) :
  OutputPerson.id <$> out = Some <$> seqZ 1 (Z.of_nat (length out)) ->
  OutputPerson.id <$> insert_rows out new
  = Some <$> seqZ 1 (Z.of_nat (length out + length new)).
Proof.
  revert out. induction new as [|p new IH]; intros out Hids; simpl.
  - by rewrite Nat.add_0_r.
  - rewrite IH.
    + rewrite length_app. simpl. f_equal. f_equal. lia.
    + rewrite fmap_app, length_app. simpl.
      rewrite Nat.add_1_r, seqZ_S, fmap_app, Hids. simpl.
      by rewrite next_rowid_numbered.
Qed.

Lemma Forall2_with_Forall_l {A B} (P : A -> Prop) (R : A -> B -> Prop)
    (l : list A) (k : list B) :
  Forall P l -> Forall2 R l k -> Forall2 (fun x y => P x /\ R x y) l k.
Proof.
  intros HP HR. induction HR as [|x y l k Hxy _ IH]; [constructor|].
  inversion HP; subst. constructor; auto.
Qed.

(** The first name of the row written for a source record is computed
    from the name of the source record. *)
Lemma first_name_of_written (p : InputPerson.t) (o : OutputPerson.t) :
  same_columns (output_person_of p) o ->
  OutputPerson.first_name o
  = match InputPerson.name p with
    | Str s => index0 (split s)
    | _ => Raise TypeError
    end.
Proof. by intros [k ->]. Qed.

(** X7: a pipeline run on a source store whose table is missing fails
    after the destination schema was dropped and recreated: whatever the
    destination store held, it is an empty table afterwards, and the
    source store is still missing. *)
Theorem failed_run_empties_destination d :
  input_database d = None ->
  request process_everything d
  = (Raise OperationalError, Database None (Some [])).
Proof. intros Hd. by rewrite process_everything_request, Hd. Qed.

Lemma failed_run_empties_destination_witness :
  let kept := OutputPerson.new (Some 1) (Str (u "Joanie Cunningham"))
                (Str (u "Joanie")) (Str (u "female")) (Int 20) (Bool false) in
  let d := Database None (Some [kept]) in
  input_database d = None
  /\ request process_everything d
     = (Raise OperationalError, Database None (Some [])).
Proof.
  intros kept d. split; [reflexivity|].
  apply (failed_run_empties_destination d). reflexivity.
Defined.

(** X8: the destination row a run writes for the source row at position
    i (counted from 0) has the key i + 1, whatever key the source row
    has, next to the columns copied from that source row and its
    [is_cool] flag: the run numbers the destination rows 1, 2, ..., n in
    the order of the source rows and does not carry the key of a source
    record over.  (For a source table of at most 2^63 - 1 rows, so that
    the keys are keys SQLite gives in this order.) *)
Theorem pipeline_renumbers_keys d rows :
  input_database d = Some rows ->
  Z.of_nat (length rows) <= max_rowid ->
  exists out,
    output_database (request process_everything d).2 = Some out
    /\ length out = length rows
    /\ (forall (i : nat) (p : InputPerson.t),
          rows !! i = Some p ->
          out !! i
          = Some (OutputPerson.new (Some (Z.of_nat i + 1))
                    (InputPerson.name p) (InputPerson.nickname p)
                    (InputPerson.gender p) (InputPerson.age p)
                    (Bool (bool_decide
                             (InputPerson.nickname p = Str (u "Fonzie"))))))
    /\ OutputPerson.id <$> out = Some <$> seqZ 1 (Z.of_nat (length rows))
    /\ Forall
         (fun o => exists k, OutputPerson.id o = Some k /\ 1 <= k <= max_rowid)
         out.
Proof.
  intros Hd Hroom.
  destruct (insert_rows_keys OutputPerson_get_set_id
              (output_person_of <$> rows) [])
    as (out & Hins & Hcols & Hkeys).
  rewrite length_fmap in Hkeys. cbn in Hins.
  change (@get_id _ OutputPerson_Model) with OutputPerson.id in Hkeys.
  change (next_rowid []) with 1 in Hkeys.
  assert (length out = length rows) as Hlen.
  { apply Forall2_length in Hcols. by rewrite length_fmap in Hcols. }
  assert (forall (i : nat) o,
            out !! i = Some o -> OutputPerson.id o = Some (1 + Z.of_nat i)
                                 /\ Z.of_nat i < Z.of_nat (length rows))
    as Hkey.
  { intros i o Ho.
    assert ((OutputPerson.id <$> out) !! i = Some (OutputPerson.id o)) as Hi
      by (by rewrite list_lookup_fmap, Ho).
    rewrite Hkeys, list_lookup_fmap in Hi.
    destruct (seqZ 1 (Z.of_nat (length rows)) !! i) as [k|] eqn:Hk;
      [|done].
    apply lookup_seqZ in Hk as [-> Hlt]. by injection Hi as <-. }
  exists out. split; [|split; [done|split; [|split; [done|]]]].
  - rewrite process_everything_output, Hd. cbn. by rewrite Hins.
  - intros i p Hp.
    assert ((output_person_of <$> rows) !! i = Some (output_person_of p))
      as Hnew by (by rewrite list_lookup_fmap, Hp).
    destruct (Forall2_lookup_l _ _ _ _ _ Hcols Hnew) as (o & Ho & [k ->]).
    rewrite Ho. f_equal. destruct (Hkey _ _ Ho) as [[= ->] _].
    cbn. rewrite is_Fonzie_decide. do 2 f_equal. lia.
  - apply Forall_forall. intros o Ho.
    apply list_elem_of_lookup in Ho as [i Ho].
    destruct (Hkey _ _ Ho) as [-> Hlt]. eexists. split; [done|]. lia.
Qed.

Lemma pipeline_renumbers_keys_witness :
  let rows := [
    InputPerson.new (Some 7) (Str (u "Joanie Cunningham")) (Str (u "Joanie"))
      (Str (u "female")) (Int 20);
    InputPerson.new (Some 40) (Str (u "Arthur Herbert Fonzarelli"))
      (Str (u "Fonzie")) (Str (u "male")) (Int 20)
  ] in
  let d := Database (Some rows) None in
  input_database d = Some rows
  /\ Z.of_nat (length rows) <= max_rowid
  /\ exists out,
       output_database (request process_everything d).2 = Some out
       /\ length out = length rows
       /\ (forall (i : nat) (p : InputPerson.t),
             rows !! i = Some p ->
             out !! i
             = Some (OutputPerson.new (Some (Z.of_nat i + 1))
                       (InputPerson.name p) (InputPerson.nickname p)
                       (InputPerson.gender p) (InputPerson.age p)
                       (Bool (bool_decide
                                (InputPerson.nickname p
                                 = Str (u "Fonzie"))))))
       /\ OutputPerson.id <$> out = Some <$> seqZ 1 (Z.of_nat (length rows))
       /\ Forall
            (fun o =>
               exists k, OutputPerson.id o = Some k /\ 1 <= k <= max_rowid)
            out.
Proof.
  intros rows d.
  assert (Z.of_nat (length rows) <= max_rowid) as Hroom
    by (vm_compute; discriminate).
  split; [reflexivity|]. split; [exact Hroom|].
  apply (pipeline_renumbers_keys d rows); [reflexivity | exact Hroom].
Defined.

(** X9: [create_lots_of_people] on a source store whose table is missing
    fails at the commit with the error of the INSERT; no table is
    created and neither database changes. *)
Theorem create_lots_of_people_needs_table d :
  input_database d = None ->
  request create_lots_of_people d = (Raise OperationalError, d).
Proof. intros Hd. by rewrite create_lots_of_people_request, Hd. Qed.

Lemma create_lots_of_people_needs_table_witness :
  let d := Database None (Some []) in
  input_database d = None
  /\ request create_lots_of_people d = (Raise OperationalError, d).
Proof.
  intros d. split; [reflexivity|].
  apply (create_lots_of_people_needs_table d). reflexivity.
Defined.

Lemma someone_else_not_Fonzie (news : list InputPerson.t) :
  Forall2 same_columns (replicate (length news) someone_else) news ->
  filter (fun p => is_Fonzie p) news = [].
Proof.
  intros H. apply same_columns_replicate in H as [_ H].
  induction H as [|p news [k ->] _ IH]; [done|].
  rewrite filter_cons_False; [done|]. by vm_compute.
Qed.

Lemma create_lots_of_people_rows d rows :
  input_database d = Some rows ->
  exists news,
    request create_lots_of_people d
    = (Ok (text (u "100,000 people created in input database")),
       Database (Some (rows ++ news)) (output_database d))
    /\ Forall2 same_columns (replicate (length news) someone_else) news
    /\ Z.of_nat (length news) = 99999.
Proof.
  intros Hd. rewrite create_lots_of_people_request, Hd.
  destruct (insert_rows_app rows (replicate (Z.to_nat 99999) someone_else))
    as (news & -> & Hnews).
  pose proof (Forall2_length _ _ _ Hnews) as Hlen.
  rewrite length_replicate in Hlen.
  exists news. split; [done|]. rewrite <- Hlen. split; [done|lia].
Qed.

(** X10: a pipeline run after a bulk creation counts the 99,999 filler
    records as processed and none of them as cool: on a source table of
    n rows, c of them with the nickname "Fonzie", the run answers
    "n + 99999 people processed of which c were cool". *)
Theorem bulk_then_pipeline_counts d rows :
  input_database d = Some rows ->
  (request process_everything (request create_lots_of_people d).2).1
  = Ok (text (str_of_int (Z.of_nat (length rows) + 99999)
              ++ u " people processed of which "
              ++ str_of_int
                   (Z.of_nat
                      (length
                         (filter (fun p => InputPerson.nickname p
                                           = Str (u "Fonzie")) rows)))
              ++ u " were cool")).
Proof.
  intros Hd.
  destruct (create_lots_of_people_rows d rows Hd) as (news & -> & Hn & Hlen).
  rewrite process_everything_request. cbn [snd fst input_database].
  rewrite filter_app, (someone_else_not_Fonzie news Hn), app_nil_r.
  rewrite filter_is_Fonzie, length_app, Nat2Z.inj_add, Hlen. reflexivity.
Qed.

Lemma bulk_then_pipeline_counts_witness :
  let rows := [
    InputPerson.new (Some 1) (Str (u "Arthur Herbert Fonzarelli"))
      (Str (u "Fonzie")) (Str (u "male")) (Int 20)
  ] in
  let d := Database (Some rows) None in
  input_database d = Some rows
  /\ (request process_everything (request create_lots_of_people d).2).1
     = Ok (text (str_of_int (Z.of_nat (length rows) + 99999)
                 ++ u " people processed of which "
                 ++ str_of_int
                      (Z.of_nat
                         (length
                            (filter (fun p => InputPerson.nickname p
                                              = Str (u "Fonzie")) rows)))
                 ++ u " were cool")).
Proof.
  intros rows d. split; [reflexivity|].
  apply (bulk_then_pipeline_counts d rows). reflexivity.
Defined.

(** X11: bulk creation adds to the source store and never resets it: on
    a source table with room below the largest key for 199,998 keys
    more, two calls in succession leave the rows that were there followed
    by 199,998 filler records, which have the 199,998 keys that follow
    the keys in use; the destination store is as it was. *)
Theorem bulk_creation_accumulates d rows :
  input_database d = Some rows ->
  next_rowid rows + 199997 <= max_rowid ->
  exists news,
    (request create_lots_of_people (request create_lots_of_people d).2).2
    = Database (Some (rows ++ news)) (output_database d)
    /\ Z.of_nat (length news) = 199998
    /\ Forall
         (fun p =>
            exists k : Z,
              p = InputPerson.new (Some k) (Str (u "Someone else"))
                    (Str (u "Too boring to have a nickname"))
                    (Str (u "Unclear")) (Int 25)
              /\ next_rowid rows <= k <= max_rowid)
         news
    /\ InputPerson.id <$> news = Some <$> seqZ (next_rowid rows) 199998
    /\ Forall
         (fun p => forall k, InputPerson.id p = Some k -> k < next_rowid rows)
         rows.
Proof.
  intros Hd Hroom.
  rewrite (create_lots_of_people_request d), Hd. cbn [snd].
  rewrite create_lots_of_people_request.
  cbn [snd input_database output_database].
  rewrite insert_rows_insert_rows, <- replicate_add.
  destruct (bulk_rows (Z.to_nat 99999 + Z.to_nat 99999) rows)
    as (news & -> & Hlen & Hall & Hkeys); [lia|].
  replace (Z.of_nat (Z.to_nat 99999 + Z.to_nat 99999)) with 199998
    in Hkeys by lia.
  exists news. split; [done|]. split; [lia|]. split; [done|].
  split; [done|]. exact (next_rowid_above (T:=InputPerson.t) rows).
Qed.

Lemma bulk_creation_accumulates_witness :
  let Richie := InputPerson.new (Some 1) (Str (u "Richard Cunningham"))
                  (Str (u "Richie")) (Str (u "male")) (Int 19) in
  let Joanie := InputPerson.new (Some 3) (Str (u "Joanie Cunningham"))
                  (Str (u "Joanie")) (Str (u "female")) (Int 20) in
  let rows := [Richie; Joanie] in
  let d := Database (Some rows) None in
  input_database d = Some rows
  /\ next_rowid rows + 199997 <= max_rowid
  /\ exists news,
       (request create_lots_of_people (request create_lots_of_people d).2).2
       = Database (Some (rows ++ news)) (output_database d)
       /\ Z.of_nat (length news) = 199998
       /\ Forall
            (fun p =>
               exists k : Z,
                 p = InputPerson.new (Some k) (Str (u "Someone else"))
                       (Str (u "Too boring to have a nickname"))
                       (Str (u "Unclear")) (Int 25)
                 /\ next_rowid rows <= k <= max_rowid)
            news
       /\ InputPerson.id <$> news = Some <$> seqZ (next_rowid rows) 199998
       /\ Forall
            (fun p =>
               forall k, InputPerson.id p = Some k -> k < next_rowid rows)
            rows.
Proof.
  intros Richie Joanie rows d.
  assert (next_rowid rows + 199997 <= max_rowid) as Hroom
    by (vm_compute; discriminate).
  split; [reflexivity|]. split; [exact Hroom|].
  apply (bulk_creation_accumulates d rows); [reflexivity | exact Hroom].
Defined.

End PipelineMore.

(* ================================================================== *)
(** * A run followed by a listing *)
(* ================================================================== *)

Section RunThenList.

Implicit Types (d : database) (rows : list InputPerson.t).

Lemma has_token_first_name_written (p : InputPerson.t) (o : OutputPerson.t) :
  (exists s, InputPerson.name p = Str s /\ has_token s) ->
  same_columns (output_person_of p) o ->
  exists s, InputPerson.name p = Str s
            /\ OutputPerson.first_name o = Ok (first_token s).
Proof.
  intros (s & Hp & Hs) Ho. exists s. split; [done|].
  rewrite (first_name_of_written p o Ho), Hp.
  by destruct (split_has_token s Hs) as [rest ->].
Qed.

(** X12: the pipeline does not look at names.  If a source record has a
    name of whitespace only (or an empty one), and the records before it
    have names with a token, the run succeeds all the same, and it is the
    listing of the destination after it that fails, with [IndexError]. *)
Theorem run_accepts_blank_name_listing_fails d
    (pre post : list InputPerson.t) (p : InputPerson.t) (s : list N) :
  input_database d = Some (pre ++ p :: post) ->
  Forall (fun q => exists t, InputPerson.name q = Str t /\ has_token t) pre ->
  InputPerson.name p = Str s ->
  Forall (fun c => isspace c = true) s ->
  (exists answer, (request process_everything d).1 = Ok answer)
  /\ (request show_output_database (request process_everything d).2).1
     = Raise IndexError.
Proof.
  intros Hd Hpre Hp Hs. split.
  - rewrite process_everything_request, Hd. by eexists.
  - pose proof (pipeline_rows (pre ++ p :: post)) as Hrows.
    apply Forall2_app_inv_l in Hrows as (pre' & tl & Hpre' & Htl & Hout).
    apply Forall2_cons_inv_l in Htl as (p' & post' & Hp' & _ & ->).
    eapply (show_output_database_raises _ pre' post' p').
    + rewrite process_everything_output, Hd. cbn. by rewrite Hout.
    + eapply Forall2_Forall_r; [exact Hpre'|].
      eapply Forall_impl; [exact Hpre|].
      intros q Hq o Ho.
      destruct (has_token_first_name_written q o Hq Ho) as (t & _ & Ht).
      by eexists.
    + rewrite (first_name_of_written p p' Hp'), Hp.
      by rewrite split_whitespace.
Qed.

Lemma run_accepts_blank_name_listing_fails_witness :
  let Richie := InputPerson.new (Some 1) (Str (u "Richard Cunningham"))
                  (Str (u "Richie")) (Str (u "male")) (Int 19) in
  let blank := InputPerson.new (Some 2) (Str (u " ")) (Str (u "Fonzie"))
                 (Str (u "male")) (Int 20) in
  let d := Database (Some ([Richie] ++ blank :: [])) None in
  input_database d = Some ([Richie] ++ blank :: [])
  /\ Forall (fun q => exists t, InputPerson.name q = Str t /\ has_token t)
       [Richie]
  /\ InputPerson.name blank = Str (u " ")
  /\ Forall (fun c => isspace c = true) (u " ")
  /\ (exists answer, (request process_everything d).1 = Ok answer)
  /\ (request show_output_database (request process_everything d).2).1
     = Raise IndexError.
Proof.
  intros Richie blank d.
  assert (Forall (fun q => exists t, InputPerson.name q = Str t /\ has_token t)
            [Richie]) as Hpre.
  { constructor; [|constructor]. eexists. split; [reflexivity|].
    apply Exists_cons_hd. reflexivity. }
  assert (Forall (fun c => isspace c = true) (u " ")) as Hblank
    by (repeat constructor).
  split; [reflexivity|]. split; [exact Hpre|]. split; [reflexivity|].
  split; [exact Hblank|].
  apply (run_accepts_blank_name_listing_fails d [Richie] [] blank (u " "));
    [reflexivity | exact Hpre | reflexivity | exact Hblank].
Defined.

(** X13: when every source record has a name with a token, the listing
    of the destination after a run has one entry for each source record,
    in the same order, with the name, nickname, gender and age of the
    source record, with is_cool telling whether the nickname is "Fonzie",
    with the first token of the name as first_name, and with the position
    of the record, counted from 1, as id. *)
Theorem run_then_listing d rows :
  input_database d = Some rows ->
  Forall (fun p => exists s, InputPerson.name p = Str s /\ has_token s) rows ->
  exists entries,
    (request show_output_database (request process_everything d).2).1
    = Ok (jsonify (json_list entries))
    /\ (fun e : gmap (list N) val => e !! u "id") <$> entries
       = (fun k => Some (Int k)) <$> seqZ 1 (Z.of_nat (length rows))
    /\ Forall2
         (fun p (e : gmap (list N) val) =>
            e !! u "name" = Some (InputPerson.name p)
            /\ e !! u "nickname" = Some (InputPerson.nickname p)
            /\ e !! u "gender" = Some (InputPerson.gender p)
            /\ e !! u "age" = Some (InputPerson.age p)
            /\ e !! u "is_cool"
               = Some (Bool (bool_decide
                               (InputPerson.nickname p = Str (u "Fonzie"))))
            /\ exists s, InputPerson.name p = Str s
                         /\ e !! u "first_name" = Some (Str (first_token s)))
         rows entries.
Proof.
  intros Hd Hnames.
  set (out := insert_rows [] (output_person_of <$> rows)).
  assert (output_database (request process_everything d).2 = Some out)
    as Hout by (rewrite process_everything_output, Hd; reflexivity).
  pose proof (Forall2_with_Forall_l _ _ _ _ Hnames (pipeline_rows rows))
    as Hrows. fold out in Hrows.
  assert (Forall (fun o => exists t, OutputPerson.first_name o = Ok t) out)
    as Hfirst.
  { eapply Forall2_Forall_r; [exact Hrows|]. apply Forall_true.
    intros p o [Hp Ho].
    destruct (has_token_first_name_written p o Hp Ho) as (t & _ & Ht).
    by eexists. }
  eexists. split; [|split].
  - by rewrite (show_output_database_entries _ out Hout Hfirst).
  - rewrite <- list_fmap_compose.
    transitivity ((fun o => Some (of_int (OutputPerson.id o))) <$> out).
    { apply list_fmap_ext. intros _ o _. cbn.
      apply (output_entry_fields o). }
    pose proof (Hkeys := insert_rows_numbered []
                  (output_person_of <$> rows) eq_refl).
    fold out in Hkeys.
    rewrite length_fmap in Hkeys. cbn in Hkeys.
    apply (f_equal (fmap (fun k => Some (of_int k)))) in Hkeys.
    rewrite <- !list_fmap_compose in Hkeys.
    exact Hkeys.
  - apply Forall2_fmap_r. eapply Forall2_impl; [exact Hrows|].
    intros p o [Hp Ho]. cbn.
    destruct (has_token_first_name_written p o Hp Ho) as (s & Hs & Ht).
    rewrite Ht. cbn [value_of].
    destruct (output_entry_fields o (first_token s))
      as (_ & _ & Hname & Hnick & Hgender & Hage & Hcool & Hfn).
    destruct Ho as [k ->]. cbn in *. rewrite <- is_Fonzie_decide.
    repeat (split; [done|]). by exists s.
Qed.

Lemma run_then_listing_witness :
  let rows := [
    InputPerson.new (Some 5) (Str (u "Arthur Herbert Fonzarelli"))
      (Str (u "Fonzie")) (Str (u "male")) (Int 20)
  ] in
  let d := Database (Some rows) None in
  input_database d = Some rows
  /\ Forall (fun p => exists s, InputPerson.name p = Str s /\ has_token s) rows
  /\ exists entries,
       (request show_output_database (request process_everything d).2).1
       = Ok (jsonify (json_list entries))
       /\ (fun e : gmap (list N) val => e !! u "id") <$> entries
          = (fun k => Some (Int k)) <$> seqZ 1 (Z.of_nat (length rows))
       /\ Forall2
            (fun p (e : gmap (list N) val) =>
               e !! u "name" = Some (InputPerson.name p)
               /\ e !! u "nickname" = Some (InputPerson.nickname p)
               /\ e !! u "gender" = Some (InputPerson.gender p)
               /\ e !! u "age" = Some (InputPerson.age p)
               /\ e !! u "is_cool"
                  = Some (Bool (bool_decide
                                  (InputPerson.nickname p
                                   = Str (u "Fonzie"))))
               /\ exists s, InputPerson.name p = Str s
                            /\ e !! u "first_name"
                               = Some (Str (first_token s)))
            rows entries.
Proof.
  intros rows d.
  assert (Forall (fun p => exists s, InputPerson.name p = Str s /\ has_token s)
            rows) as Hnames.
  { constructor; [|constructor]. eexists. split; [reflexivity|].
    apply Exists_cons_hd. reflexivity. }
  split; [reflexivity|]. split; [exact Hnames|].
  apply (run_then_listing d rows); [reflexivity | exact Hnames].
Defined.

End RunThenList.
